(** * SecureCheck: the simulated security-assessment engine and its PDF bands

    A shallow embedding of [securityAssessment.ts] (the hash, the trust
    classifier, the domain normaliser and [performSecurityAssessment]) and
    of the score bands of [pdfExport.ts].

    Modelling conventions.
    - A JavaScript string is a sequence of UTF-16 code units.  The engine's
      string functions are embedded over [string], whose characters stand
      for the code units 0..255; on that range [toLowerCase] and [trim] are
      written out exactly.  The hash is also given over arbitrary lists of
      code units ([simpleHash_codes]).
    - A JavaScript number holding an integer is a [Z].  Every intermediate
      value of the engine is far below 2^53, so double arithmetic is exact;
      the 32-bit conversions of [<<] and [&] are written out ([JS.ToInt32]).
    - [new Date().toISOString()] reads the clock: the clock reading is an
      explicit argument [now] of [performSecurityAssessment]. *)

From Stdlib Require Import ZArith Lia List Bool Ascii String DecimalString.
Import ListNotations.

Open Scope Z_scope.
Open Scope string_scope.

(* ================================================================= *)
(** ** The JavaScript primitives the sources rely on *)

Module JS.

(** ECMAScript [ToInt32] on an integral number. *)
Definition ToInt32 (z : Z) : Z :=
  let int32bit := z mod 2 ^ 32 in
  if int32bit >=? 2 ^ 31 then int32bit - 2 ^ 32 else int32bit.

(** [a << n]: both operands converted, the shift count masked to 5 bits. *)
Definition shl (a n : Z) : Z :=
  ToInt32 (Z.shiftl (ToInt32 a) (Z.land n 31)).

(** [a & b]. *)
Definition band (a b : Z) : Z :=
  ToInt32 (Z.land (ToInt32 a) (ToInt32 b)).

(** [a % b] on integers: the remainder has the sign of the dividend. *)
Definition rem (a b : Z) : Z := Z.rem a b.

(** [Math.abs], [Math.max], [Math.min]. *)
Definition abs (z : Z) : Z := Z.abs z.
Definition max (a b : Z) : Z := Z.max a b.
Definition min (a b : Z) : Z := Z.min a b.

(** Number-to-string conversion of an integer, as a template literal
    performs it. *)
Definition numberToString (z : Z) : string :=
  NilZero.string_of_int (Z.to_int z).

Definition charCode (c : ascii) : Z := Z.of_N (N_of_ascii c).

(** The code units [str.charCodeAt(0)], ..., [str.charCodeAt(str.length-1)]. *)
Fixpoint charCodes (str : string) : list Z :=
  match str with
  | EmptyString => []
  | String c rest => charCode c :: charCodes rest
  end.

(** [toLowerCase] on one code unit below 256: A-Z and the Latin-1
    capitals U+00C0..U+00DE (without the multiplication sign U+00D7)
    move up by 32, everything else is unchanged. *)
Definition lowerChar (c : ascii) : ascii :=
  let n := N_of_ascii c in
  if ((65 <=? n) && (n <=? 90))%N then ascii_of_N (n + 32)
  else if ((192 <=? n) && (n <=? 222) && negb (n =? 215))%N
       then ascii_of_N (n + 32)
  else c.

Fixpoint toLowerCase (s : string) : string :=
  match s with
  | EmptyString => EmptyString
  | String c rest => String (lowerChar c) (toLowerCase rest)
  end.

(** White space and line terminators below 256: TAB, LF, VT, FF, CR,
    SPACE and NO-BREAK SPACE. *)
Definition isWhiteSpace (c : ascii) : bool :=
  let n := N_of_ascii c in
  ((9 <=? n) && (n <=? 13) || (n =? 32) || (n =? 160))%N.

Fixpoint trimStart (s : string) : string :=
  match s with
  | EmptyString => EmptyString
  | String c rest => if isWhiteSpace c then trimStart rest else s
  end.

Fixpoint trimEnd (s : string) : string :=
  match s with
  | EmptyString => EmptyString
  | String c rest =>
      match trimEnd rest with
      | EmptyString => if isWhiteSpace c then EmptyString
                       else String c EmptyString
      | kept => String c kept
      end
  end.

Definition trim (s : string) : string := trimEnd (trimStart s).

(** [dropPrefix p s] is the rest of [s] after its prefix [p], when [s]
    starts with [p]. *)
Fixpoint dropPrefix (p s : string) : option string :=
  match p with
  | EmptyString => Some s
  | String a p' =>
      match s with
      | EmptyString => None
      | String b s' => if Ascii.eqb a b then dropPrefix p' s' else None
      end
  end.

Definition startsWith (s p : string) : bool :=
  match dropPrefix p s with Some _ => true | None => false end.

(** [s.endsWith(p)]: some suffix of [s] is [p]. *)
Fixpoint endsWith (s p : string) : bool :=
  (s =? p) ||
  match s with
  | EmptyString => false
  | String _ rest => endsWith rest p
  end.

(** [s.split(sep)[0]] for a one-character separator: the part of [s]
    before the first [sep], all of [s] when there is none. *)
Fixpoint splitHead (sep : ascii) (s : string) : string :=
  match s with
  | EmptyString => EmptyString
  | String c rest =>
      if Ascii.eqb c sep then EmptyString else String c (splitHead sep rest)
  end.

(** [s.replace(/^p/, '')] for a literal [p]. *)
Definition stripPrefix (p s : string) : string :=
  match dropPrefix p s with Some rest => rest | None => s end.

(** [s.replace(/^(https?:\/\/)?(www\.)?/, '')].  The pattern always
    matches at position 0: each optional group is taken when it matches
    (greedily) and skipped otherwise, and no later part can fail, so
    there is no backtracking into a taken group. *)
Definition stripSchemeWww (s : string) : string :=
  let afterScheme :=
    match dropPrefix "https://" s with
    | Some rest => rest
    | None => stripPrefix "http://" s
    end in
  stripPrefix "www." afterScheme.

(** [s.split(sep)] for a one-character separator: the pieces between
    the separators, in order; never the empty array. *)
Fixpoint split (sep : ascii) (s : string) : list string :=
  match s with
  | EmptyString => [EmptyString]
  | String c rest =>
      if Ascii.eqb c sep then EmptyString :: split sep rest
      else match split sep rest with
           | first :: others => String c first :: others
           | [] => [String c EmptyString]
           end
  end.

(** [s.includes(p)]: [p] occurs somewhere in [s]. *)
Fixpoint includes (s p : string) : bool :=
  startsWith s p ||
  match s with
  | EmptyString => false
  | String _ rest => includes rest p
  end.

(** [s.replace(/c/g, d)] for single characters [c] and [d]. *)
Fixpoint replaceChar (c d : ascii) (s : string) : string :=
  match s with
  | EmptyString => EmptyString
  | String a rest =>
      String (if Ascii.eqb a c then d else a) (replaceChar c d rest)
  end.

(** [a.indexOf(v)] on an array of strings: the first index holding [v],
    -1 when there is none. *)
Fixpoint indexOf (a : list string) (v : string) : Z :=
  match a with
  | [] => -1
  | x :: rest =>
      if x =? v then 0
      else let i := indexOf rest v in if (i <? 0)%Z then -1 else i + 1
  end.

(** [a.filter((v, i) => f(v, i))], the elements numbered from [i]. *)
Fixpoint filterFrom (f : string -> Z -> bool) (i : Z) (a : list string)
  : list string :=
  match a with
  | [] => []
  | v :: rest =>
      if f v i then v :: filterFrom f (i + 1) rest
      else filterFrom f (i + 1) rest
  end.

(** [a.slice(0, n)]. *)
Definition sliceTo (n : nat) (a : list string) : list string := firstn n a.

End JS.

(* ================================================================= *)
(** ** securityAssessment.ts: the data model *)

Record SecurityHeader := {
  name : string;
  description : string;
  present : bool;
  recommendation : string
}.

Inductive CertificateStatus := Valid | Unknown | Expired.

Inductive RiskLevel := Low | Medium | High.

Record SslInfo := {
  available : bool;
  certificateStatus : CertificateStatus;
  expiryDays : option Z
}.

Record DnsInfo := {
  reachable : bool;
  responseTime : string
}.

Record SecurityReport := {
  domain : string;
  timestamp : string;
  ssl : SslInfo;
  headers : list SecurityHeader;
  dns : DnsInfo;
  overallRisk : RiskLevel;
  riskScore : Z;
  recommendations : list string
}.

Definition CertificateStatus_eqb (a b : CertificateStatus) : bool :=
  match a, b with
  | Valid, Valid | Unknown, Unknown | Expired, Expired => true
  | _, _ => false
  end.

(* ================================================================= *)
(** ** securityAssessment.ts: hash, trust classifier, normaliser *)

(** One turn of the loop body of [simpleHash]:
    [hash = ((hash << 5) - hash) + char; hash = hash & hash]. *)
Definition simpleHash_step (hash char : Z) : Z :=
  let hash := (JS.shl hash 5 - hash) + char in
  JS.band hash hash.

(** [simpleHash] over the code units of its argument. *)
Definition simpleHash_codes (codes : list Z) : Z :=
  let hash := fold_left simpleHash_step codes 0 in
  JS.abs hash.

Definition simpleHash (str : string) : Z :=
  simpleHash_codes (JS.charCodes str).

Definition trustedDomains : list string :=
  [ "google.com"; "github.com"; "microsoft.com"; "apple.com";
    "amazon.com"; "cloudflare.com"; "mozilla.org"; "w3.org";
    "stackoverflow.com"; "wikipedia.org"; "edu"; "gov" ].

(** The string [isTrustedDomain] compares:
    [domain.toLowerCase().replace(/^www\./, '')]. *)
Definition trustNormalized (domain : string) : string :=
  JS.stripPrefix "www." (JS.toLowerCase domain).

Definition isTrustedDomain (domain : string) : bool :=
  let normalized := trustNormalized domain in
  existsb (fun trusted =>
             (normalized =? trusted)
             || JS.endsWith normalized ("." ++ trusted)
             || JS.endsWith normalized ".edu"
             || JS.endsWith normalized ".gov")
          trustedDomains.

Definition cleanDomain (input : string) : string :=
  JS.splitHead "?"
    (JS.splitHead "/"
       (JS.stripSchemeWww (JS.toLowerCase (JS.trim input)))).

(* ================================================================= *)
(** ** securityAssessment.ts: performSecurityAssessment *)

(** Certificate status and expiry (the [if (!hasSSL) ... else ...] block). *)
Definition certificateOf (hasSSL isTrusted : bool) (hash : Z)
  : CertificateStatus * option Z :=
  if negb hasSSL then (Unknown, None)
  else if isTrusted then (Valid, Some (90 + JS.rem hash 275))
  else
    let certRoll := JS.rem hash 100 in
    if certRoll >? 20 then (Valid, Some (30 + JS.rem hash 335))
    else if certRoll >? 5 then (Unknown, None)
    else (Expired, None).

(** The four header findings, in the order of the array literal. *)
Definition headersOf (isTrusted : bool) (hash : Z) : list SecurityHeader :=
  [ {| name := "HSTS (Strict-Transport-Security)";
       description :=
         "Forces browsers to use HTTPS, preventing downgrade attacks";
       present := isTrusted || (JS.rem hash 7 >? 2);
       recommendation :=
         "Enable HSTS with a minimum max-age of 31536000 seconds" |};
    {| name := "Content-Security-Policy";
       description := "Prevents XSS attacks by controlling resource loading";
       present := isTrusted || (JS.rem hash 11 >? 4);
       recommendation :=
         "Implement a strict CSP that limits script and style sources" |};
    {| name := "X-Frame-Options";
       description := "Prevents clickjacking by controlling iframe embedding";
       present := isTrusted || (JS.rem hash 5 >? 1);
       recommendation :=
         "Set to DENY or SAMEORIGIN to prevent framing attacks" |};
    {| name := "X-Content-Type-Options";
       description := "Prevents MIME type sniffing attacks";
       present := isTrusted || (JS.rem hash 4 >? 0);
       recommendation :=
         "Set to 'nosniff' to prevent MIME type confusion" |} ].

(** The score block: [riskScore] is a mutable local, updated in program
    order; [headers.forEach] is a left fold over the array. *)
Definition riskScoreOf (hasSSL : bool) (certStatus : CertificateStatus)
    (headers : list SecurityHeader) (dnsReachable : bool) : Z :=
  let riskScore := 100 in
  let riskScore := if negb hasSSL then riskScore - 30 else riskScore in
  let riskScore :=
    if CertificateStatus_eqb certStatus Unknown then riskScore - 10
    else riskScore in
  let riskScore :=
    if CertificateStatus_eqb certStatus Expired then riskScore - 20
    else riskScore in
  let riskScore :=
    fold_left (fun riskScore header =>
                 if negb (present header) then riskScore - 10 else riskScore)
              headers riskScore in
  let riskScore := if negb dnsReachable then riskScore - 15 else riskScore in
  JS.max 0 (JS.min 100 riskScore).

Definition overallRiskOf (riskScore : Z) : RiskLevel :=
  if riskScore >=? 70 then Low
  else if riskScore >=? 40 then Medium
  else High.

(** The recommendation block: [recommendations] starts empty and every
    [push] appends at the end. *)
Definition recommendationsOf (hasSSL : bool) (certStatus : CertificateStatus)
    (headers : list SecurityHeader) (dnsReachable : bool) : list string :=
  let push (array : list string) (item : string) := (array ++ [item])%list in
  let recommendations : list string := [] in
  let recommendations :=
    if negb hasSSL
    then push recommendations
           "Implement SSL/TLS encryption to secure data in transit"
    else recommendations in
  let recommendations :=
    if CertificateStatus_eqb certStatus Expired
    then push recommendations "Renew the SSL/TLS certificate immediately"
    else recommendations in
  let recommendations :=
    if CertificateStatus_eqb certStatus Unknown
    then push recommendations "Verify SSL/TLS certificate configuration"
    else recommendations in
  let recommendations :=
    fold_left (fun recommendations header =>
                 if negb (present header)
                 then push recommendations (recommendation header)
                 else recommendations)
              headers recommendations in
  let recommendations :=
    if negb dnsReachable
    then push recommendations
           "Investigate DNS configuration and ensure proper resolution"
    else recommendations in
  if (Z.of_nat (List.length recommendations) =? 0)%Z
  then push recommendations
         "Continue monitoring and maintain current security controls"
  else recommendations.

(** [performSecurityAssessment(domain)], with the clock reading [now] that
    [new Date().toISOString()] returns made an argument. *)
Definition performSecurityAssessment (now : string) (domain : string)
  : SecurityReport :=
  let cleanedDomain := cleanDomain domain in
  let hash := simpleHash cleanedDomain in
  let isTrusted := isTrustedDomain cleanedDomain in
  let hasSSL := isTrusted || (JS.rem hash 10 >? 2) in
  let '(certStatus, expiryDays) := certificateOf hasSSL isTrusted hash in
  let headers := headersOf isTrusted hash in
  let dnsReachable := isTrusted || (JS.rem hash 20 >? 1) in
  let responseTime :=
    if dnsReachable
    then JS.numberToString (50 + JS.rem hash 150) ++ "ms"
    else "N/A" in
  let riskScore := riskScoreOf hasSSL certStatus headers dnsReachable in
  let overallRisk := overallRiskOf riskScore in
  let recommendations :=
    recommendationsOf hasSSL certStatus headers dnsReachable in
  {| domain := cleanedDomain;
     timestamp := now;
     ssl := {| available := hasSSL;
               certificateStatus := certStatus;
               expiryDays := expiryDays |};
     headers := headers;
     dns := {| reachable := dnsReachable; responseTime := responseTime |};
     overallRisk := overallRisk;
     riskScore := riskScore;
     recommendations := recommendations |}.

(* ================================================================= *)
(** ** pdfExport.ts: the score bands of the exported document *)

Module PdfExport.

Definition strongParagraph : string :=
  "The assessed website demonstrates a STRONG security posture with minimal identified risks. "
  ++ "Core security controls are in place, and the site appears to follow security best practices. "
  ++ "Regular monitoring and periodic reassessment are recommended to maintain this level of security.".

Definition moderateParagraph : string :=
  "The assessed website shows a MODERATE security posture with some areas requiring attention. "
  ++ "While basic security measures are present, there are gaps that could potentially be exploited. "
  ++ "Implementing the recommended controls would significantly improve the security posture.".

Definition weakParagraph : string :=
  "The assessed website has a WEAK security posture with significant risks identified. "
  ++ "Critical security controls appear to be missing or misconfigured. "
  ++ "Immediate action is recommended to address the identified vulnerabilities and reduce exposure to attacks.".

(** The [ratingLabel] of the overview table. *)
Definition ratingLabel (report : SecurityReport) : string :=
  if riskScore report >=? 80 then "Strong (Low Risk)"
  else if riskScore report >=? 50 then "Moderate (Medium Risk)"
  else "Weak (High Risk)".

(** The text [generateSecurityReportPDF] passes to [addText] in the
    "Risk Interpretation" section. *)
Definition riskInterpretation (report : SecurityReport) : string :=
  if riskScore report >=? 80 then strongParagraph
  else if riskScore report >=? 50 then moderateParagraph
  else weakParagraph.

(** The "Certificate Expiry" cell:
    [report.ssl.expiryDays ? `${report.ssl.expiryDays} days` : 'N/A'];
    [null] and 0 are the falsy values. *)
Definition expiryCell (report : SecurityReport) : string :=
  match expiryDays (ssl report) with
  | Some days =>
      if (days =? 0)%Z then "N/A" else JS.numberToString days ++ " days"
  | None => "N/A"
  end.

(** The name the document is saved under; [exportNow] is the reading of
    [new Date().toISOString()] when the export runs. *)
Definition filename (exportNow : string) (report : SecurityReport) : string :=
  "security-report-" ++ JS.replaceChar "." "-" (domain report)
    ++ "-" ++ JS.splitHead "T" exportNow ++ ".pdf".

End PdfExport.

(* ================================================================= *)
(** ** Definitions that follow the wording of the specification *)

(** Truncation to the 32-bit signed range. *)
Definition truncate32 (z : Z) : Z := (z + 2 ^ 31) mod 2 ^ 32 - 2 ^ 31.

(** The reference rolling hash: the accumulator starts at 0, each code
    unit [cp] turns [acc] into [acc * 31 + cp] truncated to 32 bits
    signed, and the absolute value of the last accumulator is returned. *)
Definition rollingHash (codes : list Z) : Z :=
  Z.abs (fold_left (fun acc cp => truncate32 (acc * 31 + cp)) codes 0).

(** The reference hash read by the specification's words: one step per
    character, adding the character's code point. *)
Definition codePointHash (codePoints : list Z) : Z :=
  Z.abs (fold_left (fun acc cp => truncate32 (acc * 31 + cp)) codePoints 0).

(** The UTF-16 code units of one code point: itself below U+10000, a high
    and a low surrogate from there on. *)
Definition utf16Encode (cp : Z) : list Z :=
  if (cp <? 65536)%Z then [cp]
  else let v := cp - 65536 in
       [55296 + Z.shiftr v 10; 56320 + Z.land v 1023].

(** The code units of the JavaScript string whose characters are
    [codePoints]: what [str.length] counts and [str.charCodeAt] returns. *)
Definition utf16 (codePoints : list Z) : list Z :=
  flat_map utf16Encode codePoints.

(** The ten allow-list entries the specification names. *)
Definition allowList : list string :=
  [ "google.com"; "github.com"; "microsoft.com"; "apple.com";
    "amazon.com"; "cloudflare.com"; "mozilla.org"; "w3.org";
    "stackoverflow.com"; "wikipedia.org" ].

(** [s] ends with [p]. *)
Definition EndsWith (s p : string) : Prop := exists front, s = front ++ p.

(** The trust criterion as the specification words it, on the normalised
    string. *)
Definition specTrusted (normalized : string) : Prop :=
  In normalized allowList
  \/ EndsWith normalized ".edu"
  \/ EndsWith normalized ".gov"
  \/ exists entry, In entry allowList /\ EndsWith normalized ("." ++ entry).

(** The same criterion as a test. *)
Definition specTrustedb (normalized : string) : bool :=
  existsb (String.eqb normalized) allowList
  || JS.endsWith normalized ".edu"
  || JS.endsWith normalized ".gov"
  || existsb (fun entry => JS.endsWith normalized ("." ++ entry)) allowList.

(** The predicate of [isTrustedDomain] run against another list literal:
    with [allowList] it is the variant that drops the bare "edu" and "gov"
    entries. *)
Definition trustedAgainst (entries : list string) (domain : string) : bool :=
  let normalized := trustNormalized domain in
  existsb (fun trusted =>
             (normalized =? trusted)
             || JS.endsWith normalized ("." ++ trusted)
             || JS.endsWith normalized ".edu"
             || JS.endsWith normalized ".gov")
          entries.

(** Every character of [s] passes the test [p]. *)
Fixpoint everyChar (p : ascii -> bool) (s : string) : bool :=
  match s with
  | EmptyString => true
  | String c rest => p c && everyChar p rest
  end.

Definition isLowered (c : ascii) : bool := Ascii.eqb (JS.lowerChar c) c.

Definition isNot (sep c : ascii) : bool := negb (Ascii.eqb c sep).

(** The locals of [performSecurityAssessment] as functions of its input. *)
Definition hashOf (input : string) : Z := simpleHash (cleanDomain input).

Definition trustedInput (input : string) : bool :=
  isTrustedDomain (cleanDomain input).

Definition hasSSLOf (input : string) : bool :=
  trustedInput input || (JS.rem (hashOf input) 10 >? 2).

Definition dnsReachableOf (input : string) : bool :=
  trustedInput input || (JS.rem (hashOf input) 20 >? 1).

(** The paragraph the engine's own three bands (70 and 40) would select. *)
Definition engineBandParagraph (report : SecurityReport) : string :=
  match overallRiskOf (riskScore report) with
  | Low => PdfExport.strongParagraph
  | Medium => PdfExport.moderateParagraph
  | High => PdfExport.weakParagraph
  end.

(** The deductions of the specification's score rule, read off a report. *)
Definition missingHeaders (report : SecurityReport) : Z :=
  Z.of_nat (List.length (filter (fun h => negb (present h)) (headers report))).

Definition specRawScore (report : SecurityReport) : Z :=
  100
  - (if available (ssl report) then 0 else 30)
  - (match certificateStatus (ssl report) with
     | Unknown => 10 | Expired => 20 | Valid => 0 end)
  - 10 * missingHeaders report
  - (if reachable (dns report) then 0 else 15).

Definition specScore (report : SecurityReport) : Z :=
  Z.max 0 (Z.min 100 (specRawScore report)).

(** A report with its timestamp replaced. *)
Definition withTimestamp (t : string) (report : SecurityReport)
  : SecurityReport :=
  {| domain := domain report;
     timestamp := t;
     ssl := ssl report;
     headers := headers report;
     dns := dns report;
     overallRisk := overallRisk report;
     riskScore := riskScore report;
     recommendations := recommendations report |}.

(* ================================================================= *)
(** ** securityAssessment.ts: isValidDomain *)

Definition isDigit (c : ascii) : bool :=
  let n := N_of_ascii c in ((48 <=? n) && (n <=? 57))%N.

(** The class [a-zA-Z]. *)
Definition isLetter (c : ascii) : bool :=
  let n := N_of_ascii c in
  ((65 <=? n) && (n <=? 90) || (97 <=? n) && (n <=? 122))%N.

(** The class [a-zA-Z0-9-]. *)
Definition isLabelChar (c : ascii) : bool :=
  isLetter c || isDigit c || Ascii.eqb c "-".

(** One repetition of [([a-zA-Z0-9-]+\.)], without its dot. *)
Definition labelOk (l : string) : bool :=
  negb (l =? "") && everyChar isLabelChar l.

(** [[a-zA-Z]{2,}]. *)
Definition tldOk (t : string) : bool :=
  (2 <=? String.length t)%nat && everyChar isLetter t.

(** [/^(?!:\/\/)([a-zA-Z0-9-]+\.)+[a-zA-Z]{2,}$/.test(s)].  No class of
    the pattern contains the dot, so a match cuts [s] at its dots: the
    last piece is the final [[a-zA-Z]{2,}], every piece before it is one
    repetition of the group, and there is at least one. *)
Definition domainRegexTest (s : string) : bool :=
  negb (JS.startsWith s "://")
  && match rev (JS.split "." s) with
     | tld :: label :: labels => tldOk tld && forallb labelOk (label :: labels)
     | _ => false
     end.

Definition isValidDomain (domain : string) : bool :=
  let cleaned := JS.splitHead "/" (JS.stripSchemeWww domain) in
  domainRegexTest cleaned.

(** The pattern read as a grammar: one or more labels, each followed by a
    dot, then the final run of letters. *)
Definition RegexLabel (l : string) : Prop :=
  l <> "" /\ everyChar isLabelChar l = true.

Definition RegexTld (t : string) : Prop :=
  (2 <= String.length t)%nat /\ everyChar isLetter t = true.

Fixpoint dotted (labels : list string) (tld : string) : string :=
  match labels with
  | [] => tld
  | l :: rest => l ++ "." ++ dotted rest tld
  end.

Definition DomainShape (s : string) : Prop :=
  exists labels tld,
    labels <> [] /\ Forall RegexLabel labels /\ RegexTld tld
    /\ s = dotted labels tld.

(** Lower-case letters, digits, hyphen and dot. *)
Definition isHostChar (c : ascii) : bool :=
  let n := N_of_ascii c in
  ((97 <=? n) && (n <=? 122))%N || isDigit c
  || Ascii.eqb c "-" || Ascii.eqb c ".".

(** Letters of either case, digits, hyphen and dot: what a string the
    pattern accepts is made of. *)
Definition isRawHostChar (c : ascii) : bool :=
  isLabelChar c || Ascii.eqb c ".".

(** The first half of [JS.stripSchemeWww]: the optional scheme taken off. *)
Definition afterScheme (s : string) : string :=
  match JS.dropPrefix "https://" s with
  | Some rest => rest
  | None => JS.stripPrefix "http://" s
  end.

(* ================================================================= *)
(** ** Reading the engine's report *)

(** The header array with its four [present] flags given. *)
Definition headersWith (hsts csp xfo xcto : bool) : list SecurityHeader :=
  [ {| name := "HSTS (Strict-Transport-Security)";
       description :=
         "Forces browsers to use HTTPS, preventing downgrade attacks";
       present := hsts;
       recommendation :=
         "Enable HSTS with a minimum max-age of 31536000 seconds" |};
    {| name := "Content-Security-Policy";
       description := "Prevents XSS attacks by controlling resource loading";
       present := csp;
       recommendation :=
         "Implement a strict CSP that limits script and style sources" |};
    {| name := "X-Frame-Options";
       description := "Prevents clickjacking by controlling iframe embedding";
       present := xfo;
       recommendation :=
         "Set to DENY or SAMEORIGIN to prevent framing attacks" |};
    {| name := "X-Content-Type-Options";
       description := "Prevents MIME type sniffing attacks";
       present := xcto;
       recommendation :=
         "Set to 'nosniff' to prevent MIME type confusion" |} ].

Definition affirmation : string :=
  "Continue monitoring and maintain current security controls".

(** The recommendations of the checks that failed, in program order. *)
Definition failingRecommendations (hasSSL : bool)
    (certStatus : CertificateStatus) (hs : list SecurityHeader)
    (dnsReachable : bool) : list string :=
  ((if hasSSL then []
    else ["Implement SSL/TLS encryption to secure data in transit"])
   ++ (match certStatus with
       | Expired => ["Renew the SSL/TLS certificate immediately"]
       | Unknown => ["Verify SSL/TLS certificate configuration"]
       | Valid => []
       end)
   ++ map recommendation (filter (fun h => negb (present h)) hs)
   ++ (if dnsReachable then []
       else ["Investigate DNS configuration and ensure proper resolution"])
  )%list.

(** How many checks of a report failed. *)
Definition failedChecks (report : SecurityReport) : Z :=
  (if available (ssl report) then 0 else 1)
  + (match certificateStatus (ssl report) with Valid => 0 | _ => 1 end)
  + missingHeaders report
  + (if reachable (dns report) then 0 else 1).

(** No string occurs twice. *)
Fixpoint distinctb (l : list string) : bool :=
  match l with
  | [] => true
  | x :: rest => negb (existsb (String.eqb x) rest) && distinctb rest
  end.

(** The integers [lo], [lo + 1], ..., [lo + n - 1]. *)
Fixpoint countFrom (lo : Z) (n : nat) : list Z :=
  match n with
  | O => []
  | S n' => lo :: countFrom (lo + 1) n'
  end.

(** The findings a report is built from: its SSL flag, certificate
    status, four header flags and DNS flag, with the score, rating and
    recommendations computed from them. *)
Definition BuiltFrom (report : SecurityReport) (hasSSL : bool)
    (certStatus : CertificateStatus) (hsts csp xfo xcto dnsReachable : bool)
  : Prop :=
  available (ssl report) = hasSSL
  /\ certificateStatus (ssl report) = certStatus
  /\ headers report = headersWith hsts csp xfo xcto
  /\ reachable (dns report) = dnsReachable
  /\ riskScore report
     = riskScoreOf hasSSL certStatus (headersWith hsts csp xfo xcto)
                   dnsReachable
  /\ overallRisk report = overallRiskOf (riskScore report)
  /\ recommendations report
     = recommendationsOf hasSSL certStatus (headersWith hsts csp xfo xcto)
                         dnsReachable.

(* ================================================================= *)
(** ** SecurityReportSummary.tsx: risks and technical controls *)

Module ReportSummary.

Record IdentifiedRisk := {
  severity : string;
  risk : string;
  impact : string
}.

Definition noCriticalRisk : IdentifiedRisk :=
  {| severity := "Low";
     risk := "No critical risks identified";
     impact := "Current security controls appear adequate. Continue monitoring and maintaining security posture." |}.

(** The [identifiedRisks] array: it starts empty and every [push] appends
    at the end. *)
Definition identifiedRisks (report : SecurityReport) : list IdentifiedRisk :=
  let push (array : list IdentifiedRisk) (item : IdentifiedRisk) :=
    (array ++ [item])%list in
  let identifiedRisks : list IdentifiedRisk := [] in
  let identifiedRisks :=
    if negb (available (ssl report))
    then push identifiedRisks
           {| severity := "High";
              risk := "User data could be intercepted";
              impact := "Sensitive information like passwords or personal data could be read by attackers during transmission" |}
    else identifiedRisks in
  let identifiedRisks :=
    if CertificateStatus_eqb (certificateStatus (ssl report)) Expired
    then push identifiedRisks
           {| severity := "High";
              risk := "Website trust is compromised";
              impact := "Visitors will see browser warnings and may leave the site, damaging reputation and user trust" |}
    else identifiedRisks in
  let missingHeaders := filter (fun h => negb (present h)) (headers report) in
  let identifiedRisks :=
    if existsb (fun h => JS.includes (name h) "Content-Security-Policy")
               missingHeaders
    then push identifiedRisks
           {| severity := "Medium";
              risk := "Vulnerable to script injection attacks";
              impact := "Malicious code could be injected into the website, potentially stealing user data or defacing content" |}
    else identifiedRisks in
  let identifiedRisks :=
    if existsb (fun h => JS.includes (name h) "X-Frame-Options")
               missingHeaders
    then push identifiedRisks
           {| severity := "Medium";
              risk := "Susceptible to clickjacking";
              impact := "Users could be tricked into clicking hidden buttons or links, leading to unintended actions" |}
    else identifiedRisks in
  let identifiedRisks :=
    if negb (reachable (dns report))
    then push identifiedRisks
           {| severity := "High";
              risk := "Website availability issues";
              impact := "Users cannot access the website, resulting in lost business and poor user experience" |}
    else identifiedRisks in
  if (Z.of_nat (List.length identifiedRisks) =? 0)%Z
  then push identifiedRisks noCriticalRisk
  else identifiedRisks.

(** The [technicalControls] array: the spread literal, its duplicates
    removed (an element stays when it is its own first occurrence), cut
    to eight entries. *)
Definition technicalControls (report : SecurityReport) : list string :=
  let all :=
    (recommendations report
     ++ (if available (ssl report) then []
         else ["Deploy SSL/TLS certificates from a trusted Certificate Authority"])
     ++ [ "Implement Web Application Firewall (WAF) for additional protection";
          "Enable security logging and monitoring (SIEM integration recommended)";
          "Configure automated security scanning in CI/CD pipelines";
          "Implement Content Security Policy with strict directives" ])%list in
  JS.sliceTo 8 (JS.filterFrom (fun v i => (JS.indexOf all v =? i)%Z) 0 all).

End ReportSummary.

(* ================================================================= *)
(** ** The hash *)

Section Hash.

Local Ltac int32_arith :=
  unfold JS.ToInt32, truncate32;
  change (2 ^ 32) with 4294967296; change (2 ^ 31) with 2147483648;
  repeat match goal with
         | |- context [?a >=? ?b] => destruct (Z.geb_spec a b)
         end;
  Z.div_mod_to_equations; lia.

Lemma ToInt32_truncate32 (z : Z) : JS.ToInt32 z = truncate32 z.
Proof. int32_arith. Qed.

Lemma ToInt32_range (z : Z) : - 2 ^ 31 <= JS.ToInt32 z < 2 ^ 31.
Proof. int32_arith. Qed.

Lemma ToInt32_small (z : Z) :
  - 2 ^ 31 <= z < 2 ^ 31 -> JS.ToInt32 z = z.
Proof. intros H; revert H; int32_arith. Qed.

(** [ToInt32] only looks at its argument modulo 2^32. *)
Lemma ToInt32_periodic (z k : Z) :
  JS.ToInt32 (z + 2 ^ 32 * k) = JS.ToInt32 z.
Proof.
  unfold JS.ToInt32.
  replace ((z + 2 ^ 32 * k) mod 2 ^ 32) with (z mod 2 ^ 32); [reflexivity|].
  rewrite Z.mul_comm, Z.mod_add; [reflexivity | discriminate].
Qed.

Lemma ToInt32_congruent (z : Z) : exists k, JS.ToInt32 z = z + 2 ^ 32 * k.
Proof.
  exists (- (z / 2 ^ 32) - (if z mod 2 ^ 32 >=? 2 ^ 31 then 1 else 0)).
  unfold JS.ToInt32.
  change (2 ^ 32) with 4294967296; change (2 ^ 31) with 2147483648.
  destruct (Z.geb_spec (z mod 4294967296) 2147483648);
    Z.div_mod_to_equations; lia.
Qed.

Lemma shl_5 (hash : Z) : JS.shl hash 5 = JS.ToInt32 (hash * 32).
Proof.
  unfold JS.shl. change (Z.land 5 31) with 5.
  rewrite Z.shiftl_mul_pow2 by lia. change (2 ^ 5) with 32.
  destruct (ToInt32_congruent hash) as [k ->].
  replace ((hash + 2 ^ 32 * k) * 32) with (hash * 32 + 2 ^ 32 * (k * 32))
    by ring.
  apply ToInt32_periodic.
Qed.

Lemma band_diag (z : Z) : JS.band z z = JS.ToInt32 z.
Proof.
  unfold JS.band. rewrite Z.land_diag.
  apply ToInt32_small, ToInt32_range.
Qed.

(** The loop body is one step of the reference recurrence, whatever the
    accumulator and the code unit. *)
Lemma simpleHash_step_spec (hash char : Z) :
  simpleHash_step hash char = truncate32 (hash * 31 + char).
Proof.
  unfold simpleHash_step. cbv zeta.
  rewrite band_diag, shl_5, <- ToInt32_truncate32.
  destruct (ToInt32_congruent (hash * 32)) as [k ->].
  replace (hash * 32 + 2 ^ 32 * k - hash + char)
    with (hash * 31 + char + 2 ^ 32 * k) by ring.
  apply ToInt32_periodic.
Qed.

(** The accumulator stays a 32-bit signed integer. *)
Lemma simpleHash_step_range (hash char : Z) :
  - 2 ^ 31 <= simpleHash_step hash char < 2 ^ 31.
Proof.
  unfold simpleHash_step. cbv zeta. rewrite band_diag.
  apply ToInt32_range.
Qed.

(** The value [((hash << 5) - hash) + char] handed to [&] is an integer
    a double represents exactly. *)
Lemma simpleHash_step_exact (hash char : Z) :
  - 2 ^ 31 <= hash < 2 ^ 31 -> 0 <= char < 2 ^ 16 ->
  - 2 ^ 53 < (JS.shl hash 5 - hash) + char < 2 ^ 53.
Proof.
  intros Hh Hc. rewrite shl_5.
  pose proof (ToInt32_range (hash * 32)) as Hs.
  change (2 ^ 53) with 9007199254740992.
  change (2 ^ 31) with 2147483648 in *.
  change (2 ^ 16) with 65536 in *. lia.
Qed.

Lemma fold_simpleHash_step (codes : list Z) (acc : Z) :
  fold_left simpleHash_step codes acc
  = fold_left (fun acc cp => truncate32 (acc * 31 + cp)) codes acc.
Proof.
  revert acc.
  induction codes as [|cp codes IH]; intros acc; simpl.
  - reflexivity.
  - rewrite simpleHash_step_spec. apply IH.
Qed.

Lemma simpleHash_codes_rollingHash (codes : list Z) :
  simpleHash_codes codes = rollingHash codes.
Proof.
  unfold simpleHash_codes, rollingHash, JS.abs. cbv zeta.
  now rewrite fold_simpleHash_step.
Qed.

Lemma fold_simpleHash_range (codes : list Z) (acc : Z) :
  - 2 ^ 31 <= acc < 2 ^ 31 ->
  - 2 ^ 31 <= fold_left simpleHash_step codes acc < 2 ^ 31.
Proof.
  revert acc.
  induction codes as [|cp codes IH]; intros acc Hacc; simpl.
  - exact Hacc.
  - apply IH, simpleHash_step_range.
Qed.

Lemma simpleHash_codes_range (codes : list Z) :
  0 <= simpleHash_codes codes <= 2 ^ 31.
Proof.
  unfold simpleHash_codes, JS.abs. cbv zeta.
  pose proof (fold_simpleHash_range codes 0) as H.
  change (2 ^ 31) with 2147483648 in *. lia.
Qed.

Lemma simpleHash_nonneg (str : string) : 0 <= simpleHash str.
Proof. apply simpleHash_codes_range. Qed.

Lemma utf16_below_65536 (codePoints : list Z) :
  Forall (fun cp => cp < 65536) codePoints -> utf16 codePoints = codePoints.
Proof.
  intros H. unfold utf16.
  induction H as [|cp cps Hcp _ IH]; cbn [flat_map]; [reflexivity|].
  rewrite IH. unfold utf16Encode.
  destruct (Z.ltb_spec cp 65536); [reflexivity | lia].
Qed.

(** C4, as stated, fails: the loop runs over UTF-16 code units, not over
    characters.  The one-character string U+1F600 has the code units
    55357 and 56832; the code returns 55357 * 31 + 56832 = 1772899, the
    hash of its single code point is 128512. *)
Lemma simpleHash_not_code_point_hash :
  utf16 [128512] = [55357; 56832]
  /\ simpleHash_codes (utf16 [128512]) = 1772899
  /\ codePointHash [128512] = 128512
  /\ simpleHash_codes (utf16 [128512]) <> codePointHash [128512].
Proof.
  repeat split; try (vm_compute; reflexivity).
  vm_compute. discriminate.
Qed.

(** C4, amended.  [simpleHash] is the rolling hash of the UTF-16 code
    units of its argument: the accumulator starts at 0, every code unit
    turns it into [acc * 31 + unit] truncated to the 32-bit signed range,
    and the absolute value of the last accumulator is returned.  That is
    the hash of the code points whenever every character lies below
    U+10000. *)
Theorem simpleHash_is_code_unit_hash :
  (forall str : string, simpleHash str = rollingHash (JS.charCodes str))
  /\ (forall codes : list Z, simpleHash_codes codes = rollingHash codes)
  /\ (forall codePoints : list Z,
        simpleHash_codes (utf16 codePoints) = rollingHash (utf16 codePoints))
  /\ (forall codePoints : list Z,
        Forall (fun cp => cp < 65536) codePoints ->
        simpleHash_codes (utf16 codePoints) = codePointHash codePoints).
Proof.
  split; [|split; [|split]].
  - intros str. apply simpleHash_codes_rollingHash.
  - apply simpleHash_codes_rollingHash.
  - intros cps. apply simpleHash_codes_rollingHash.
  - intros cps Hbmp. rewrite (utf16_below_65536 cps Hbmp).
    rewrite simpleHash_codes_rollingHash. reflexivity.
Qed.

End Hash.

(* ================================================================= *)
(** ** The assessment engine *)

Section Engine.

Variables (now : string) (input : string).

Let r := performSecurityAssessment now input.

Local Ltac open_report :=
  unfold r, performSecurityAssessment, hasSSLOf, dnsReachableOf,
    trustedInput, hashOf;
  destruct (certificateOf _ _ _); reflexivity.

Lemma report_domain : domain r = cleanDomain input.
Proof. open_report. Qed.

Lemma report_timestamp : timestamp r = now.
Proof. open_report. Qed.

Lemma report_available : available (ssl r) = hasSSLOf input.
Proof. open_report. Qed.

Lemma report_certificateStatus :
  certificateStatus (ssl r)
  = fst (certificateOf (hasSSLOf input) (trustedInput input)
                       (hashOf input)).
Proof. open_report. Qed.

Lemma report_expiryDays :
  expiryDays (ssl r)
  = snd (certificateOf (hasSSLOf input) (trustedInput input)
                       (hashOf input)).
Proof. open_report. Qed.

Lemma report_headers :
  headers r = headersOf (trustedInput input) (hashOf input).
Proof. open_report. Qed.

Lemma report_reachable : reachable (dns r) = dnsReachableOf input.
Proof. open_report. Qed.

Lemma report_riskScore :
  riskScore r
  = riskScoreOf (available (ssl r)) (certificateStatus (ssl r))
                (headers r) (reachable (dns r)).
Proof. open_report. Qed.

Lemma report_overallRisk :
  overallRisk r = overallRiskOf (riskScore r).
Proof. open_report. Qed.

Lemma report_recommendations :
  recommendations r
  = recommendationsOf (available (ssl r))
                      (certificateStatus (ssl r))
                      (headers r) (reachable (dns r)).
Proof. open_report. Qed.

End Engine.

Section Score.

(** What [headers.forEach] does to the score. *)
Lemma fold_header_deductions (hs : list SecurityHeader) (acc : Z) :
  fold_left (fun riskScore header =>
               if negb (present header) then riskScore - 10 else riskScore)
            hs acc
  = acc - 10 * Z.of_nat (List.length
                           (filter (fun h => negb (present h)) hs)).
Proof.
  revert acc.
  induction hs as [|h hs IH]; intros acc.
  - simpl. lia.
  - cbn [fold_left filter]. rewrite IH.
    destruct (present h); cbn [negb List.length]; lia.
Qed.

Lemma riskScoreOf_closed_form (hasSSL : bool) (cs : CertificateStatus)
    (hs : list SecurityHeader) (dnsReachable : bool) :
  riskScoreOf hasSSL cs hs dnsReachable
  = Z.max 0 (Z.min 100
      (100
       - (if hasSSL then 0 else 30)
       - (match cs with Unknown => 10 | Expired => 20 | Valid => 0 end)
       - 10 * Z.of_nat (List.length
                          (filter (fun h => negb (present h)) hs))
       - (if dnsReachable then 0 else 15))).
Proof.
  unfold riskScoreOf, JS.max, JS.min. cbv zeta.
  rewrite fold_header_deductions.
  destruct hasSSL, cs, dnsReachable;
    cbn [negb CertificateStatus_eqb]; do 2 f_equal; lia.
Qed.

Lemma missing_of_headersOf (isTrusted : bool) (hash : Z) :
  0 <= Z.of_nat (List.length
                   (filter (fun h => negb (present h))
                           (headersOf isTrusted hash))) <= 4.
Proof.
  split; [lia|].
  pose proof (filter_length_le (fun h => negb (present h))
                               (headersOf isTrusted hash)) as H.
  change (List.length (headersOf isTrusted hash)) with 4%nat in H. lia.
Qed.

(** Without SSL the certificate is Unknown, never Expired. *)
Lemma certificateOf_no_ssl (isTrusted : bool) (hash : Z) :
  certificateOf false isTrusted hash = (Unknown, None).
Proof. reflexivity. Qed.

Lemma certificateOf_trusted (hash : Z) :
  certificateOf true true hash = (Valid, Some (90 + JS.rem hash 275)).
Proof. reflexivity. Qed.

Lemma overallRiskOf_bands (score : Z) :
  (score >= 70 <-> overallRiskOf score = Low)
  /\ (40 <= score < 70 <-> overallRiskOf score = Medium)
  /\ (score < 40 <-> overallRiskOf score = High).
Proof.
  unfold overallRiskOf.
  destruct (Z.geb_spec score 70); [|destruct (Z.geb_spec score 40)];
    repeat split; intros; try lia; try discriminate; try reflexivity.
Qed.

End Score.

(** C3.  The report depends on the clock only through [timestamp]: for
    every input string, two calls (whatever the two clock readings) give
    reports that agree on every other field. *)
Theorem assessment_deterministic (s now1 now2 : string) :
  let r1 := performSecurityAssessment now1 s in
  let r2 := performSecurityAssessment now2 s in
  domain r1 = domain r2
  /\ ssl r1 = ssl r2
  /\ headers r1 = headers r2
  /\ dns r1 = dns r2
  /\ overallRisk r1 = overallRisk r2
  /\ riskScore r1 = riskScore r2
  /\ recommendations r1 = recommendations r2
  /\ r1 = withTimestamp now1 r2.
Proof.
  unfold performSecurityAssessment, withTimestamp. cbv zeta.
  destruct (certificateOf _ _ _); cbn [domain ssl headers dns overallRisk
    riskScore recommendations]; repeat split; reflexivity.
Qed.

(** C6.  When the cleaned domain is trusted, the report has SSL available,
    a Valid certificate and a reachable DNS. *)
Theorem trusted_domain_floor (now s : string) :
  isTrustedDomain (cleanDomain s) = true ->
  let r := performSecurityAssessment now s in
  available (ssl r) = true
  /\ certificateStatus (ssl r) = Valid
  /\ reachable (dns r) = true.
Proof.
  intros Htrusted r. subst r.
  rewrite report_available, report_certificateStatus, report_reachable.
  unfold hasSSLOf, dnsReachableOf, trustedInput.
  rewrite Htrusted. cbn [orb].
  rewrite certificateOf_trusted. repeat split; reflexivity.
Qed.

Lemma trusted_domain_floor_witness :
  isTrustedDomain (cleanDomain "docs.github.com/readme") = true
  /\ let r := performSecurityAssessment "2024-05-01T09:30:00.000Z"
                                        "docs.github.com/readme" in
     available (ssl r) = true
     /\ certificateStatus (ssl r) = Valid
     /\ reachable (dns r) = true.
Proof.
  split.
  - vm_compute. reflexivity.
  - apply (trusted_domain_floor "2024-05-01T09:30:00.000Z"
                                "docs.github.com/readme").
    vm_compute. reflexivity.
Defined.

(** C7.  For every input, [riskScore] is 100 minus 30 when SSL is
    unavailable, minus 10 when the certificate is Unknown, minus 20 when
    it is Expired, minus 10 per missing header, minus 15 when DNS is
    unreachable, clamped to [0,100]; so it lies between 0 and 100. *)
Theorem riskScore_formula (now s : string) :
  let r := performSecurityAssessment now s in
  riskScore r = specScore r /\ 0 <= riskScore r <= 100.
Proof.
  intros r. subst r.
  rewrite report_riskScore, riskScoreOf_closed_form.
  unfold specScore, missingHeaders. cbv zeta.
  split; [reflexivity | lia].
Qed.

(** C8.  In every report the score and the rating agree: the score is at
    least 70 exactly when the rating is Low, in [40,70) exactly when it is
    Medium, and below 40 exactly when it is High. *)
Theorem risk_score_consistency (now s : string) :
  let r := performSecurityAssessment now s in
  (riskScore r >= 70 <-> overallRisk r = Low)
  /\ (40 <= riskScore r < 70 <-> overallRisk r = Medium)
  /\ (riskScore r < 40 <-> overallRisk r = High).
Proof.
  intros r. subst r.
  rewrite report_overallRisk. apply overallRiskOf_bands.
Qed.

(** C10.  For every input the score is at least 5: the deductions sum to
    at most 30 + 10 + 4 * 10 + 15 = 95, so the unclamped value is already
    the score and a score of 0 is never produced. *)
Theorem riskScore_at_least_5 (now s : string) :
  let r := performSecurityAssessment now s in
  5 <= riskScore r
  /\ riskScore r = specRawScore r
  /\ riskScore r <> 0.
Proof.
  intros r. subst r.
  rewrite report_riskScore, riskScoreOf_closed_form.
  unfold specRawScore, missingHeaders.
  rewrite report_headers, report_available, report_certificateStatus.
  set (t := trustedInput s).
  set (h := hashOf s).
  pose proof (missing_of_headersOf t h) as Hm.
  set (m := Z.of_nat _) in *.
  destruct (hasSSLOf s) eqn:Hssl.
  - destruct (fst (certificateOf true t h)),
             (reachable (dns (performSecurityAssessment now s))); lia.
  - rewrite certificateOf_no_ssl. cbn [fst].
    destruct (reachable (dns (performSecurityAssessment now s))); lia.
Qed.

(** The bound of C10 is reached: the empty input scores exactly 5. *)
Example riskScore_empty_input (now : string) :
  riskScore (performSecurityAssessment now "") = 5.
Proof. vm_compute. reflexivity. Qed.

(** C9.  The report for "google.com": trusted, SSL available, certificate
    Valid, all four headers present, DNS reachable, score 100, rating Low
    and the single affirmation as recommendations; the input
    "HTTPS://WWW.Google.com/path?x=1" cleans to "google.com" and gives the
    same report, the timestamp apart. *)
Theorem google_scenario (now now' : string) :
  let r := performSecurityAssessment now "google.com" in
  let r' := performSecurityAssessment now' "HTTPS://WWW.Google.com/path?x=1" in
  isTrustedDomain (cleanDomain "google.com") = true
  /\ available (ssl r) = true
  /\ certificateStatus (ssl r) = Valid
  /\ map present (headers r) = [true; true; true; true]
  /\ reachable (dns r) = true
  /\ riskScore r = 100
  /\ overallRisk r = Low
  /\ recommendations r
     = ["Continue monitoring and maintain current security controls"]
  /\ cleanDomain "HTTPS://WWW.Google.com/path?x=1" = "google.com"
  /\ r' = withTimestamp now' r.
Proof.
  vm_compute. repeat split; reflexivity.
Qed.

(* ================================================================= *)
(** ** The bands of the PDF export *)

Section PdfBands.

Import PdfExport.

Lemma paragraphs_distinct :
  strongParagraph <> moderateParagraph
  /\ strongParagraph <> weakParagraph
  /\ moderateParagraph <> weakParagraph.
Proof.
  repeat split; apply String.eqb_neq; vm_compute; reflexivity.
Qed.

Lemma riskInterpretation_cases (report : SecurityReport) :
  (80 <= riskScore report /\ riskInterpretation report = strongParagraph)
  \/ (50 <= riskScore report < 80
      /\ riskInterpretation report = moderateParagraph)
  \/ (riskScore report < 50 /\ riskInterpretation report = weakParagraph).
Proof.
  unfold riskInterpretation.
  destruct (Z.geb_spec (riskScore report) 80) as [H80|H80];
    [left; split; [lia | reflexivity]|].
  destruct (Z.geb_spec (riskScore report) 50) as [H50|H50];
    [right; left | right; right]; split; (lia || reflexivity).
Qed.

(** C2, as stated, fails on reports the engine produces: "music.com"
    scores 70, which the engine rates Low, and the export prints the
    MODERATE paragraph; "home.com" scores 40, rated Medium, and the
    export prints the WEAK paragraph. *)
Lemma pdf_bands_not_engine_bands :
  let r70 := performSecurityAssessment "2024-05-01T09:30:00.000Z"
                                       "music.com" in
  let r40 := performSecurityAssessment "2024-05-01T09:30:00.000Z"
                                       "home.com" in
  (riskScore r70 = 70 /\ overallRisk r70 = Low
   /\ riskInterpretation r70 = moderateParagraph
   /\ riskInterpretation r70 <> strongParagraph
   /\ riskInterpretation r70 <> engineBandParagraph r70)
  /\ (riskScore r40 = 40 /\ overallRisk r40 = Medium
      /\ riskInterpretation r40 = weakParagraph
      /\ riskInterpretation r40 <> moderateParagraph
      /\ riskInterpretation r40 <> engineBandParagraph r40).
Proof.
  repeat split;
    try (vm_compute; reflexivity);
    apply String.eqb_neq; vm_compute; reflexivity.
Qed.

(** C2, amended.  The export chooses the paragraph (and the rating
    label) by the bands 80 and 50: STRONG exactly from 80 up, MODERATE
    exactly in [50,80), WEAK exactly below 50; this is the engine's band
    exactly when the score is outside [70,80) and [40,50). *)
Theorem pdf_risk_interpretation_bands (report : SecurityReport) :
  (riskInterpretation report = strongParagraph <-> 80 <= riskScore report)
  /\ (riskInterpretation report = moderateParagraph
      <-> 50 <= riskScore report < 80)
  /\ (riskInterpretation report = weakParagraph <-> riskScore report < 50)
  /\ (ratingLabel report = "Strong (Low Risk)" <-> 80 <= riskScore report)
  /\ (ratingLabel report = "Moderate (Medium Risk)"
      <-> 50 <= riskScore report < 80)
  /\ (ratingLabel report = "Weak (High Risk)" <-> riskScore report < 50)
  /\ (riskInterpretation report = engineBandParagraph report
      <-> ~ (70 <= riskScore report < 80)
          /\ ~ (40 <= riskScore report < 50)).
Proof.
  destruct paragraphs_distinct as (Hsm & Hsw & Hmw).
  unfold engineBandParagraph, overallRiskOf, ratingLabel, riskInterpretation.
  destruct (Z.geb_spec (riskScore report) 80);
    destruct (Z.geb_spec (riskScore report) 70);
    destruct (Z.geb_spec (riskScore report) 50);
    destruct (Z.geb_spec (riskScore report) 40);
    try lia;
    repeat split; intros;
    try lia; try reflexivity; try discriminate; try congruence;
    try (exfalso; lia).
Qed.

End PdfBands.

(* ================================================================= *)
(** ** The trust classifier *)

Section Trust.

Lemma endsWith_append (front p : string) :
  JS.endsWith (front ++ p) p = true.
Proof.
  induction front as [|c front IH].
  - destruct p; cbn [append JS.endsWith]; rewrite String.eqb_refl;
      reflexivity.
  - cbn [append JS.endsWith]. rewrite IH. apply orb_true_r.
Qed.

Lemma endsWith_spec (s p : string) :
  JS.endsWith s p = true <-> EndsWith s p.
Proof.
  split.
  - induction s as [|c s IH]; cbn [JS.endsWith]; intros H;
      apply orb_true_iff in H; destruct H as [H|H].
    + apply String.eqb_eq in H. exists "". now subst.
    + discriminate.
    + apply String.eqb_eq in H. exists "". now subst.
    + destruct (IH H) as [front ->]. now exists (String c front).
  - intros [front ->]. apply endsWith_append.
Qed.

Lemma trustedDomains_split :
  trustedDomains = (allowList ++ ["edu"; "gov"])%list.
Proof. reflexivity. Qed.

Lemma isTrustedDomain_trustedAgainst (domain : string) :
  isTrustedDomain domain = trustedAgainst trustedDomains domain.
Proof. reflexivity. Qed.

Lemma specTrustedb_spec (n : string) :
  specTrustedb n = true <-> specTrusted n.
Proof.
  unfold specTrustedb, specTrusted.
  rewrite !orb_true_iff, !existsb_exists, !endsWith_spec.
  split.
  - intros [[[(e & Hin & He) | H] | H] | (e & Hin & He)].
    + apply String.eqb_eq in He. subst e. now left.
    + now right; left.
    + now right; right; left.
    + right; right; right. exists e. now rewrite <- endsWith_spec.
  - intros [Hin | [H | [H | (e & Hin & He)]]].
    + left; left; left. exists n. split; [assumption|].
      apply String.eqb_refl.
    + now left; left; right.
    + now left; right.
    + right. exists e. now rewrite endsWith_spec.
Qed.

(** What the predicate of [isTrustedDomain] accepts, for any non-empty
    list literal. *)
Lemma trustedAgainst_spec (entries : list string) (domain : string) :
  entries <> [] ->
  trustedAgainst entries domain = true
  <-> (In (trustNormalized domain) entries
       \/ EndsWith (trustNormalized domain) ".edu"
       \/ EndsWith (trustNormalized domain) ".gov"
       \/ exists entry, In entry entries
            /\ EndsWith (trustNormalized domain) ("." ++ entry)).
Proof.
  intros Hne. unfold trustedAgainst. cbv zeta.
  set (n := trustNormalized domain).
  rewrite existsb_exists. split.
  - intros (e & Hin & He).
    rewrite !orb_true_iff, !endsWith_spec in He.
    destruct He as [[[He | He] | He] | He].
    + apply String.eqb_eq in He. subst e. now left.
    + right; right; right. now exists e.
    + now right; left.
    + now right; right; left.
  - destruct entries as [|e0 entries]; [contradiction|].
    intros [Hin | [H | [H | (e & Hin & He)]]].
    + exists n. split; [assumption|].
      now rewrite String.eqb_refl.
    + exists e0. split; [now left|].
      apply endsWith_spec in H. rewrite H.
      now rewrite !orb_true_r.
    + exists e0. split; [now left|].
      apply endsWith_spec in H. rewrite H.
      now rewrite !orb_true_r.
    + exists e. split; [assumption|].
      apply endsWith_spec in He. rewrite He.
      now rewrite !orb_true_r.
Qed.

(** C5, as stated, fails: the bare entry "edu" makes the string "edu"
    itself trusted, although it is none of the ten entries and ends with
    neither ".edu", ".gov" nor "." + entry; without the bare entries the
    same string is not trusted. *)
Lemma bare_edu_is_trusted :
  isTrustedDomain "edu" = true
  /\ trustNormalized "edu" = "edu"
  /\ ~ specTrusted (trustNormalized "edu")
  /\ trustedAgainst allowList "edu" = false.
Proof.
  repeat split; try (vm_compute; reflexivity).
  rewrite <- specTrustedb_spec. vm_compute. discriminate.
Qed.

(** C5, amended.  [isTrustedDomain] holds exactly when the normalised
    string is one of the ten entries, or is "edu" or "gov" itself, or
    ends with ".edu", ".gov" or "." + one of the ten entries; the variant
    without the bare entries accepts exactly the specification's set, so
    the two differ on the normalised strings "edu" and "gov" only. *)
Theorem isTrustedDomain_characterisation (domain : string) :
  (isTrustedDomain domain = true
   <-> specTrusted (trustNormalized domain)
       \/ trustNormalized domain = "edu"
       \/ trustNormalized domain = "gov")
  /\ (trustedAgainst allowList domain = true
      <-> specTrusted (trustNormalized domain)).
Proof.
  split.
  - rewrite isTrustedDomain_trustedAgainst,
      trustedAgainst_spec by discriminate.
    rewrite trustedDomains_split. unfold specTrusted.
    set (n := trustNormalized domain). split.
    + intros [Hin | [H | [H | (e & Hin & He)]]].
      * apply in_app_or in Hin. destruct Hin as [Hin | Hin].
        -- now left; left.
        -- cbn [In] in Hin. destruct Hin as [<- | [<- | []]].
           ++ now right; left.
           ++ now right; right.
      * now left; right; left.
      * now left; right; right; left.
      * apply in_app_or in Hin. destruct Hin as [Hin | Hin].
        -- left; right; right; right. now exists e.
        -- cbn [In] in Hin. destruct Hin as [<- | [<- | []]].
           ++ now left; right; left.
           ++ now left; right; right; left.
    + intros [[Hin | [H | [H | (e & Hin & He)]]] | [H | H]].
      * left. apply in_or_app. now left.
      * now right; left.
      * now right; right; left.
      * right; right; right. exists e. split; [|assumption].
        apply in_or_app. now left.
      * left. rewrite H. apply in_or_app. right. now left.
      * left. rewrite H. apply in_or_app. right. now right; left.
  - rewrite trustedAgainst_spec by discriminate. reflexivity.
Qed.

End Trust.

(* ================================================================= *)
(** ** The domain normaliser *)

Section Normaliser.

Lemma lowerChar_idempotent (c : ascii) :
  JS.lowerChar (JS.lowerChar c) = JS.lowerChar c.
Proof.
  destruct c as [[] [] [] [] [] [] [] []]; vm_compute; reflexivity.
Qed.

Lemma everyChar_toLowerCase (s : string) :
  everyChar isLowered (JS.toLowerCase s) = true.
Proof.
  induction s as [|c s IH]; cbn [JS.toLowerCase everyChar].
  - reflexivity.
  - rewrite IH, andb_true_r. unfold isLowered.
    rewrite lowerChar_idempotent. apply Ascii.eqb_refl.
Qed.

Lemma toLowerCase_fixed (s : string) :
  everyChar isLowered s = true -> JS.toLowerCase s = s.
Proof.
  induction s as [|c s IH]; cbn [JS.toLowerCase everyChar]; intros H.
  - reflexivity.
  - apply andb_true_iff in H. destruct H as [Hc Hs].
    apply Ascii.eqb_eq in Hc. rewrite Hc, IH by assumption. reflexivity.
Qed.

(** Trimming, dropping a prefix and cutting at a separator only remove
    characters. *)
Section Preserved.

Variable p : ascii -> bool.

Lemma everyChar_trimStart (s : string) :
  everyChar p s = true -> everyChar p (JS.trimStart s) = true.
Proof.
  induction s as [|c s IH]; cbn [JS.trimStart]; intros H.
  - exact H.
  - destruct (JS.isWhiteSpace c); [|exact H].
    cbn [everyChar] in H. apply andb_true_iff in H. now apply IH.
Qed.

Lemma everyChar_trimEnd (s : string) :
  everyChar p s = true -> everyChar p (JS.trimEnd s) = true.
Proof.
  induction s as [|c s IH]; cbn [JS.trimEnd everyChar]; intros H.
  - reflexivity.
  - apply andb_true_iff in H. destruct H as [Hc Hs].
    specialize (IH Hs).
    destruct (JS.trimEnd s) as [|c' kept].
    + destruct (JS.isWhiteSpace c); cbn [everyChar];
        [reflexivity | now rewrite Hc].
    + cbn [everyChar] in *. now rewrite Hc.
Qed.

Lemma everyChar_trim (s : string) :
  everyChar p s = true -> everyChar p (JS.trim s) = true.
Proof.
  intros H. now apply everyChar_trimEnd, everyChar_trimStart.
Qed.

Lemma everyChar_dropPrefix (pre s rest : string) :
  JS.dropPrefix pre s = Some rest ->
  everyChar p s = true -> everyChar p rest = true.
Proof.
  revert s.
  induction pre as [|a pre IH]; intros s; cbn [JS.dropPrefix].
  - now intros [= ->].
  - destruct s as [|b s]; [discriminate|].
    destruct (Ascii.eqb a b); [|discriminate].
    intros Hd Hs. cbn [everyChar] in Hs.
    apply andb_true_iff in Hs. now apply (IH s).
Qed.

Lemma everyChar_stripPrefix (pre s : string) :
  everyChar p s = true -> everyChar p (JS.stripPrefix pre s) = true.
Proof.
  unfold JS.stripPrefix. intros H.
  destruct (JS.dropPrefix pre s) eqn:E; [|exact H].
  exact (everyChar_dropPrefix _ _ _ E H).
Qed.

Lemma everyChar_stripSchemeWww (s : string) :
  everyChar p s = true -> everyChar p (JS.stripSchemeWww s) = true.
Proof.
  unfold JS.stripSchemeWww. intros H. cbv zeta.
  apply everyChar_stripPrefix.
  destruct (JS.dropPrefix "https://" s) eqn:E.
  - exact (everyChar_dropPrefix _ _ _ E H).
  - now apply everyChar_stripPrefix.
Qed.

Lemma everyChar_splitHead (sep : ascii) (s : string) :
  everyChar p s = true -> everyChar p (JS.splitHead sep s) = true.
Proof.
  induction s as [|c s IH]; cbn [JS.splitHead everyChar]; intros H.
  - reflexivity.
  - apply andb_true_iff in H. destruct H as [Hc Hs].
    destruct (Ascii.eqb c sep); cbn [everyChar]; [reflexivity|].
    rewrite Hc. now apply IH.
Qed.

End Preserved.

Lemma splitHead_free (sep : ascii) (s : string) :
  everyChar (isNot sep) (JS.splitHead sep s) = true.
Proof.
  induction s as [|c s IH]; cbn [JS.splitHead everyChar].
  - reflexivity.
  - destruct (Ascii.eqb c sep) eqn:E; cbn [everyChar]; [reflexivity|].
    unfold isNot at 1. now rewrite E.
Qed.

Lemma splitHead_fixed (sep : ascii) (s : string) :
  everyChar (isNot sep) s = true -> JS.splitHead sep s = s.
Proof.
  induction s as [|c s IH]; cbn [JS.splitHead everyChar]; intros H.
  - reflexivity.
  - apply andb_true_iff in H. destruct H as [Hc Hs].
    unfold isNot in Hc.
    destruct (Ascii.eqb c sep); [discriminate|].
    now rewrite IH.
Qed.

Lemma dropPrefix_append (pre s rest : string) :
  JS.dropPrefix pre s = Some rest -> s = pre ++ rest.
Proof.
  revert s.
  induction pre as [|a pre IH]; intros s; cbn [JS.dropPrefix append].
  - now intros [= ->].
  - destruct s as [|b s]; [discriminate|].
    destruct (Ascii.eqb_spec a b) as [->|]; [|discriminate].
    intros Hd. now rewrite (IH s Hd).
Qed.

Lemma dropPrefix_length (pre s rest : string) :
  JS.dropPrefix pre s = Some rest ->
  length s = (length pre + length rest)%nat.
Proof.
  revert s.
  induction pre as [|a pre IH]; intros s; cbn [JS.dropPrefix length].
  - now intros [= ->].
  - destruct s as [|b s]; [discriminate|].
    destruct (Ascii.eqb a b); [|discriminate].
    intros Hd. cbn [length]. now rewrite (IH s Hd).
Qed.

Lemma stripPrefix_length (pre s : string) :
  (length (JS.stripPrefix pre s) <= length s)%nat.
Proof.
  unfold JS.stripPrefix.
  destruct (JS.dropPrefix pre s) eqn:E; [|lia].
  apply dropPrefix_length in E. lia.
Qed.

(** A string without "/" starts with neither scheme. *)
Lemma stripSchemeWww_no_slash (s : string) :
  everyChar (isNot "/") s = true ->
  JS.stripSchemeWww s = JS.stripPrefix "www." s.
Proof.
  intros H. unfold JS.stripSchemeWww. cbv zeta.
  assert (JS.dropPrefix "https://" s = None) as ->.
  { destruct (JS.dropPrefix "https://" s) eqn:E; [|reflexivity].
    apply dropPrefix_append in E. subst s. cbn in H. discriminate. }
  assert (JS.stripPrefix "http://" s = s) as ->; [|reflexivity].
  unfold JS.stripPrefix.
  destruct (JS.dropPrefix "http://" s) eqn:E; [|reflexivity].
  apply dropPrefix_append in E. subst s. cbn in H. discriminate.
Qed.

Lemma stripPrefix_www_fixed (s : string) :
  JS.stripPrefix "www." s = s <-> JS.startsWith s "www." = false.
Proof.
  unfold JS.stripPrefix, JS.startsWith.
  destruct (JS.dropPrefix "www." s) eqn:E.
  - apply dropPrefix_length in E. cbn [length] in E.
    split; [intros ->; lia | discriminate].
  - split; reflexivity.
Qed.

Lemma trimStart_length (s : string) :
  JS.trimStart s = s \/ (length (JS.trimStart s) < length s)%nat.
Proof.
  induction s as [|c s IH]; cbn [JS.trimStart].
  - now left.
  - destruct (JS.isWhiteSpace c); [right | now left].
    cbn [length]. destruct IH as [-> | IH]; lia.
Qed.

Lemma trimEnd_length (s : string) :
  JS.trimEnd s = s \/ (length (JS.trimEnd s) < length s)%nat.
Proof.
  induction s as [|c s IH]; cbn [JS.trimEnd].
  - now left.
  - destruct IH as [E | IH].
    + rewrite E. destruct s as [|c' s]; [|now left].
      destruct (JS.isWhiteSpace c); [right; cbn [length]; lia | now left].
    + right. destruct (JS.trimEnd s) as [|c' kept];
        [destruct (JS.isWhiteSpace c)|]; cbn [length] in *; lia.
Qed.

Lemma trim_length (s : string) :
  JS.trim s = s \/ (length (JS.trim s) < length s)%nat.
Proof.
  unfold JS.trim.
  destruct (trimStart_length s) as [E | H].
  - rewrite E. apply trimEnd_length.
  - right. destruct (trimEnd_length (JS.trimStart s)) as [E | H'];
      [rewrite E|]; lia.
Qed.

(** A cleaned domain is lower-case and contains neither "/" nor "?". *)
Lemma cleanDomain_shape (input : string) :
  everyChar isLowered (cleanDomain input) = true
  /\ everyChar (isNot "/") (cleanDomain input) = true
  /\ everyChar (isNot "?") (cleanDomain input) = true.
Proof.
  unfold cleanDomain. repeat split.
  - apply everyChar_splitHead, everyChar_splitHead,
      everyChar_stripSchemeWww, everyChar_toLowerCase.
  - apply everyChar_splitHead, splitHead_free.
  - apply splitHead_free.
Qed.

(** On such a string [cleanDomain] only trims and strips one "www.". *)
Lemma cleanDomain_on_cleaned (t : string) :
  everyChar isLowered t = true ->
  everyChar (isNot "/") t = true ->
  everyChar (isNot "?") t = true ->
  cleanDomain t = JS.stripPrefix "www." (JS.trim t).
Proof.
  intros Hl Hs Hq. unfold cleanDomain.
  rewrite toLowerCase_fixed by now apply everyChar_trim.
  rewrite stripSchemeWww_no_slash by now apply everyChar_trim.
  rewrite (splitHead_fixed "/")
    by now apply everyChar_stripPrefix, everyChar_trim.
  apply splitHead_fixed.
  now apply everyChar_stripPrefix, everyChar_trim.
Qed.

(** C1, as stated, fails: only one "www." is stripped, and white space
    uncovered by the cut at "/" (or left after a scheme) survives the
    first pass. *)
Lemma cleanDomain_not_idempotent :
  cleanDomain "www.www.a.com" = "www.a.com"
  /\ cleanDomain (cleanDomain "www.www.a.com") = "a.com"
  /\ cleanDomain (cleanDomain "www.www.a.com") <> cleanDomain "www.www.a.com"
  /\ cleanDomain "a /b" = "a "
  /\ cleanDomain (cleanDomain "a /b") = "a"
  /\ cleanDomain (cleanDomain "a /b") <> cleanDomain "a /b".
Proof.
  repeat split; try (vm_compute; reflexivity); vm_compute; discriminate.
Qed.

(** C1, amended.  A second pass of [cleanDomain] changes nothing exactly
    when the first result has no leading or trailing white space and
    does not start with "www."; otherwise the second pass trims it or
    strips one more "www.". *)
Theorem cleanDomain_idempotent_iff (s : string) :
  cleanDomain (cleanDomain s) = cleanDomain s
  <-> JS.trim (cleanDomain s) = cleanDomain s
      /\ JS.startsWith (cleanDomain s) "www." = false.
Proof.
  destruct (cleanDomain_shape s) as (Hl & Hs & Hq).
  rewrite (cleanDomain_on_cleaned _ Hl Hs Hq).
  set (t := cleanDomain s). split.
  - intros H.
    assert (JS.trim t = t) as E.
    { destruct (trim_length t) as [E | L]; [exact E | exfalso].
      pose proof (stripPrefix_length "www." (JS.trim t)) as Hle.
      rewrite H in Hle. lia. }
    split; [exact E|].
    apply stripPrefix_www_fixed. now rewrite E in H.
  - intros [E W]. rewrite E. now apply stripPrefix_www_fixed.
Qed.

End Normaliser.

(* ================================================================= *)
(** ** More on the engine's report *)

Section Findings.

Lemma rem_bounds (h m : Z) : 0 <= h -> 0 < m -> 0 <= JS.rem h m < m.
Proof. intros Hh Hm. unfold JS.rem. apply Z.rem_bound_pos; assumption. Qed.

Lemma hashOf_nonneg (s : string) : 0 <= hashOf s.
Proof. apply simpleHash_nonneg. Qed.

Lemma headersOf_headersWith (t : bool) (h : Z) :
  headersOf t h
  = headersWith (t || (JS.rem h 7 >? 2)) (t || (JS.rem h 11 >? 4))
                (t || (JS.rem h 5 >? 1)) (t || (JS.rem h 4 >? 0)).
Proof. reflexivity. Qed.

Lemma report_responseTime (now s : string) :
  responseTime (dns (performSecurityAssessment now s))
  = if dnsReachableOf s
    then JS.numberToString (50 + JS.rem (hashOf s) 150) ++ "ms"
    else "N/A".
Proof.
  unfold performSecurityAssessment, dnsReachableOf, trustedInput, hashOf.
  destruct (certificateOf _ _ _); reflexivity.
Qed.

(** Every report is built from seven flags and a certificate status, and
    without SSL the status is Unknown. *)
Lemma report_built (now s : string) :
  exists hasSSL cs hsts csp xfo xcto dnsReachable,
    BuiltFrom (performSecurityAssessment now s)
              hasSSL cs hsts csp xfo xcto dnsReachable
    /\ (hasSSL = false -> cs = Unknown).
Proof.
  exists (hasSSLOf s),
    (fst (certificateOf (hasSSLOf s) (trustedInput s) (hashOf s))).
  do 4 eexists. exists (dnsReachableOf s).
  split.
  - unfold BuiltFrom.
    rewrite report_overallRisk, report_recommendations, report_riskScore,
      report_headers, report_available, report_certificateStatus,
      report_reachable, headersOf_headersWith.
    repeat split; reflexivity.
  - intros ->. reflexivity.
Qed.

Lemma certificateOf_cases (hasSSL t : bool) (h : Z) :
  0 <= h ->
  (exists d, certificateOf hasSSL t h = (Valid, Some d)
             /\ 30 <= d <= 364 /\ (t = true -> 90 <= d) /\ hasSSL = true)
  \/ certificateOf hasSSL t h = (Unknown, None)
  \/ (certificateOf hasSSL t h = (Expired, None)
      /\ hasSSL = true /\ t = false).
Proof.
  intros Hh. unfold certificateOf.
  pose proof (rem_bounds h 275 Hh ltac:(lia)).
  pose proof (rem_bounds h 335 Hh ltac:(lia)).
  destruct hasSSL; cbn [negb]; [|now right; left].
  destruct t.
  - left. eexists. repeat split; try reflexivity; lia.
  - destruct (JS.rem h 100 >? 20); [|destruct (JS.rem h 100 >? 5)].
    + left. eexists. repeat split; try reflexivity; try lia; discriminate.
    + now right; left.
    + right; right. now repeat split.
Qed.

(** X1.  In every report the expiry is present exactly when the
    certificate is Valid, and then lies between 30 and 364 days (from 90
    for a trusted domain); without SSL the status is Unknown, so an Expired
    certificate only occurs with SSL available and an untrusted domain. *)
Theorem ssl_block_invariant (now s : string) :
  let r := performSecurityAssessment now s in
  (certificateStatus (ssl r) = Valid
   <-> exists d, expiryDays (ssl r) = Some d)
  /\ (forall d, expiryDays (ssl r) = Some d ->
        30 <= d <= 364 /\ (isTrustedDomain (cleanDomain s) = true -> 90 <= d))
  /\ (available (ssl r) = false -> certificateStatus (ssl r) = Unknown)
  /\ (certificateStatus (ssl r) = Expired ->
        available (ssl r) = true /\ isTrustedDomain (cleanDomain s) = false).
Proof.
  intros r. subst r.
  rewrite report_certificateStatus, report_expiryDays, report_available.
  fold (trustedInput s).
  destruct (certificateOf_cases (hasSSLOf s) (trustedInput s) (hashOf s)
              (hashOf_nonneg s))
    as [(d & -> & Hd & Ht & Hssl) | [-> | (-> & Hssl & Ht)]]; cbn [fst snd].
  - repeat split; intros; try congruence; eauto;
      try match goal with
          | H : Some d = Some ?d0 |- _ =>
              assert (d0 = d) by congruence; subst
          end; try lia; auto.
  - repeat split; intros; try congruence; try discriminate.
    destruct H; discriminate.
  - repeat split; intros; try congruence; try discriminate.
    destruct H; discriminate.
Qed.

Lemma countFrom_In (n : nat) (lo z : Z) :
  lo <= z < lo + Z.of_nat n -> In z (countFrom lo n).
Proof.
  revert lo.
  induction n as [|n IH]; intros lo H; [lia|].
  cbn [countFrom In].
  destruct (Z.eq_dec lo z); [now left | right].
  apply IH. lia.
Qed.

Lemma responseTime_text_not_NA (n : Z) :
  50 <= n <= 199 -> JS.numberToString n ++ "ms" <> "N/A".
Proof.
  intros Hn. apply String.eqb_neq.
  assert (forallb (fun n => negb (JS.numberToString n ++ "ms" =? "N/A"))
                  (countFrom 50 150) = true) as Hall
    by (vm_compute; reflexivity).
  rewrite forallb_forall in Hall.
  apply negb_true_iff, Hall, countFrom_In. lia.
Qed.

(** X2.  The response time is the text "N/A" exactly when DNS is
    unreachable; otherwise it is a number between 50 and 199 followed by
    "ms". *)
Theorem responseTime_shape (now s : string) :
  let r := performSecurityAssessment now s in
  (reachable (dns r) = false <-> responseTime (dns r) = "N/A")
  /\ (reachable (dns r) = true <->
      exists n, 50 <= n <= 199
                /\ responseTime (dns r) = JS.numberToString n ++ "ms").
Proof.
  intros r. subst r.
  rewrite report_reachable, report_responseTime.
  pose proof (rem_bounds (hashOf s) 150 (hashOf_nonneg s) ltac:(lia)) as Hb.
  assert (50 <= 50 + JS.rem (hashOf s) 150 <= 199) as Hn by lia.
  destruct (dnsReachableOf s); repeat split; intros H;
    try reflexivity; try discriminate.
  - exfalso. eapply responseTime_text_not_NA; eassumption.
  - eexists. split; [exact Hn | reflexivity].
  - destruct H as (n & Hrange & Heq). exfalso.
    eapply responseTime_text_not_NA; [exact Hrange | now symmetry].
Qed.

End Findings.

(* ================================================================= *)
(** ** Recommendations and score of a report *)

Section Recommendations.

Lemma fold_header_recommendations (hs : list SecurityHeader)
    (acc : list string) :
  fold_left (fun recs h =>
               if negb (present h) then (recs ++ [recommendation h])%list
               else recs)
            hs acc
  = (acc ++ map recommendation
              (filter (fun h => negb (present h)) hs))%list.
Proof.
  revert acc.
  induction hs as [|h hs IH]; intros acc.
  - cbn [fold_left filter map]. now rewrite app_nil_r.
  - cbn [fold_left filter]. rewrite IH.
    destruct (present h); cbn [negb map]; [reflexivity|].
    now rewrite <- app_assoc.
Qed.

Lemma push_when_empty (l : list string) (x : string) :
  (if (Z.of_nat (List.length l) =? 0)%Z then (l ++ [x])%list else l)
  = match l with [] => [x] | _ :: _ => l end.
Proof. destruct l; reflexivity. Qed.

Lemma recommendationsOf_closed_form (hasSSL : bool) (cs : CertificateStatus)
    (hs : list SecurityHeader) (dnsReachable : bool) :
  recommendationsOf hasSSL cs hs dnsReachable
  = match failingRecommendations hasSSL cs hs dnsReachable with
    | [] => [affirmation]
    | _ :: _ => failingRecommendations hasSSL cs hs dnsReachable
    end.
Proof.
  unfold recommendationsOf, failingRecommendations. cbv beta zeta.
  rewrite fold_header_recommendations, push_when_empty.
  destruct hasSSL, cs, dnsReachable;
    cbn [negb CertificateStatus_eqb app];
    rewrite <- ?app_assoc, ?app_nil_r; reflexivity.
Qed.

Lemma distinctb_NoDup (l : list string) : distinctb l = true -> NoDup l.
Proof.
  induction l as [|x l IH]; cbn [distinctb]; intros H.
  - constructor.
  - apply andb_true_iff in H. destruct H as [Hx Hl].
    constructor; [|now apply IH].
    intros Hin. apply negb_true_iff in Hx.
    assert (existsb (String.eqb x) l = true) as Hex; [|congruence].
    apply existsb_exists. exists x. split; [exact Hin|].
    apply String.eqb_refl.
Qed.

(** X3.  The recommendations of a report are, in this order: the SSL
    advice when SSL is unavailable, the renewal advice when the
    certificate is Expired or the verification advice when it is Unknown,
    the recommendation text of every missing header in header order, and
    the DNS advice when DNS is unreachable; when that list is empty, the
    affirmation alone. *)
Theorem recommendations_in_order (now s : string) :
  let r := performSecurityAssessment now s in
  let failing :=
    failingRecommendations (available (ssl r)) (certificateStatus (ssl r))
                           (headers r) (reachable (dns r)) in
  recommendations r
  = match failing with [] => [affirmation] | _ :: _ => failing end.
Proof.
  intros r failing. subst r failing.
  rewrite report_recommendations. apply recommendationsOf_closed_form.
Qed.

Local Ltac by_flags now s :=
  destruct (report_built now s)
    as (hasSSL & cs & hsts & csp & xfo & xcto & dnsReachable
        & (E1 & E2 & E3 & E4 & E5 & E6 & E7) & Hcs);
  unfold failedChecks, missingHeaders;
  rewrite ?E7, ?E6, ?E5, ?E4, ?E3, ?E2, ?E1;
  clear E1 E2 E3 E4 E5 E6 E7;
  destruct hasSSL;
    [ clear Hcs; destruct cs | rewrite (Hcs eq_refl); clear Hcs ];
    destruct hsts, csp, xfo, xcto, dnsReachable.

(** X4.  A report scores 100 exactly when no check failed, and exactly
    then its recommendations are the affirmation alone; otherwise there is
    one recommendation per failed check and the affirmation is not among
    them. *)
Theorem full_score_iff_affirmation (now s : string) :
  let r := performSecurityAssessment now s in
  (riskScore r = 100 <-> recommendations r = [affirmation])
  /\ (riskScore r = 100 <-> failedChecks r = 0)
  /\ (failedChecks r <> 0 ->
      Z.of_nat (List.length (recommendations r)) = failedChecks r
      /\ ~ In affirmation (recommendations r)).
Proof.
  intros r. subst r. by_flags now s; vm_compute;
    repeat split; intros; try reflexivity; try discriminate;
    try congruence; intuition discriminate.
Qed.

(** X5.  The recommendations of a report are never empty, never more
    than seven, and no text occurs twice. *)
Theorem recommendations_distinct (now s : string) :
  let r := performSecurityAssessment now s in
  NoDup (recommendations r)
  /\ (1 <= List.length (recommendations r) <= 7)%nat.
Proof.
  intros r. subst r. by_flags now s;
    (split; [apply distinctb_NoDup; vm_compute; reflexivity
            | vm_compute; lia]).
Qed.

(** X6.  The score of a report is a multiple of 5 and is never 95: any
    failed check costs at least 10 points. *)
Theorem riskScore_steps (now s : string) :
  let r := performSecurityAssessment now s in
  (riskScore r) mod 5 = 0 /\ riskScore r <> 95.
Proof.
  intros r. subst r. by_flags now s; vm_compute;
    (split; [reflexivity | discriminate]).
Qed.

(** X7.  A trusted domain gets the perfect report: score 100, rating
    Low, all four headers present, the affirmation as only
    recommendation, a certificate expiry between 90 and 364 days and a
    measured response time. *)
Theorem trusted_domain_perfect (now s : string) :
  isTrustedDomain (cleanDomain s) = true ->
  let r := performSecurityAssessment now s in
  riskScore r = 100
  /\ overallRisk r = Low
  /\ map present (headers r) = [true; true; true; true]
  /\ recommendations r = [affirmation]
  /\ (exists d, expiryDays (ssl r) = Some d /\ 90 <= d <= 364)
  /\ responseTime (dns r) <> "N/A".
Proof.
  intros Htrusted r. subst r.
  pose proof (rem_bounds (hashOf s) 275 (hashOf_nonneg s) ltac:(lia)) as Hb.
  pose proof (rem_bounds (hashOf s) 150 (hashOf_nonneg s) ltac:(lia)) as Hr.
  rewrite report_overallRisk, report_recommendations, report_riskScore,
    report_responseTime, report_expiryDays, report_headers,
    report_available, report_certificateStatus, report_reachable.
  unfold hasSSLOf, dnsReachableOf, trustedInput in *.
  rewrite Htrusted, headersOf_headersWith. cbn [orb].
  rewrite certificateOf_trusted. cbn [fst snd].
  split; [vm_compute; reflexivity|].
  split; [vm_compute; reflexivity|].
  split; [reflexivity|].
  split; [vm_compute; reflexivity|].
  split.
  - eexists. split; [reflexivity | lia].
  - apply responseTime_text_not_NA. lia.
Qed.

Lemma trusted_domain_perfect_witness :
  isTrustedDomain (cleanDomain "https://www.mit.edu/research") = true
  /\ let r := performSecurityAssessment "2024-05-01T09:30:00.000Z"
                                        "https://www.mit.edu/research" in
     riskScore r = 100
     /\ overallRisk r = Low
     /\ map present (headers r) = [true; true; true; true]
     /\ recommendations r = [affirmation]
     /\ (exists d, expiryDays (ssl r) = Some d /\ 90 <= d <= 364)
     /\ responseTime (dns r) <> "N/A".
Proof.
  split.
  - vm_compute. reflexivity.
  - apply (trusted_domain_perfect "2024-05-01T09:30:00.000Z"
                                  "https://www.mit.edu/research").
    vm_compute. reflexivity.
Defined.

(** X8.  A report without SSL never rates Low: its score is at most 60,
    its certificate is Unknown without expiry, and its domain is not
    trusted. *)
Theorem no_ssl_never_low (now s : string) :
  available (ssl (performSecurityAssessment now s)) = false ->
  let r := performSecurityAssessment now s in
  riskScore r <= 60
  /\ overallRisk r <> Low
  /\ certificateStatus (ssl r) = Unknown
  /\ expiryDays (ssl r) = None
  /\ isTrustedDomain (cleanDomain s) = false.
Proof.
  intros Hssl r. subst r.
  assert (isTrustedDomain (cleanDomain s) = false) as Ht.
  { rewrite report_available in Hssl. unfold hasSSLOf, trustedInput in Hssl.
    now apply orb_false_iff in Hssl. }
  assert (expiryDays (ssl (performSecurityAssessment now s)) = None) as He.
  { rewrite report_expiryDays. rewrite report_available in Hssl.
    now rewrite Hssl. }
  assert (riskScore (performSecurityAssessment now s) <= 60
          /\ overallRisk (performSecurityAssessment now s) <> Low
          /\ certificateStatus (ssl (performSecurityAssessment now s))
             = Unknown) as (H1 & H2 & H3).
  { revert Hssl. clear Ht He.
    by_flags now s; intros Hssl; try discriminate Hssl; vm_compute;
      repeat split; try discriminate; try reflexivity. }
  repeat split; assumption.
Qed.

Lemma no_ssl_never_low_witness :
  available (ssl (performSecurityAssessment "2024-05-01T09:30:00.000Z"
                                            "home.com")) = false
  /\ let r := performSecurityAssessment "2024-05-01T09:30:00.000Z"
                                        "home.com" in
     riskScore r <= 60
     /\ overallRisk r <> Low
     /\ certificateStatus (ssl r) = Unknown
     /\ expiryDays (ssl r) = None
     /\ isTrustedDomain (cleanDomain "home.com") = false.
Proof.
  split.
  - vm_compute. reflexivity.
  - apply (no_ssl_never_low "2024-05-01T09:30:00.000Z" "home.com").
    vm_compute. reflexivity.
Defined.

(** X9.  A report with an Expired certificate scores at most 80, has
    SSL available, and starts its recommendations with the renewal
    advice. *)
Theorem expired_certificate_report (now s : string) :
  certificateStatus (ssl (performSecurityAssessment now s)) = Expired ->
  let r := performSecurityAssessment now s in
  riskScore r <= 80
  /\ available (ssl r) = true
  /\ hd_error (recommendations r)
     = Some "Renew the SSL/TLS certificate immediately".
Proof.
  intros Hcert r. subst r. revert Hcert.
  by_flags now s; intros Hcert; try discriminate Hcert; vm_compute;
    repeat split; discriminate.
Qed.

Lemma expired_certificate_report_witness :
  certificateStatus (ssl (performSecurityAssessment
                            "2024-05-01T09:30:00.000Z" "store.com")) = Expired
  /\ let r := performSecurityAssessment "2024-05-01T09:30:00.000Z"
                                        "store.com" in
     riskScore r <= 80
     /\ available (ssl r) = true
     /\ hd_error (recommendations r)
        = Some "Renew the SSL/TLS certificate immediately".
Proof.
  split.
  - vm_compute. reflexivity.
  - apply (expired_certificate_report "2024-05-01T09:30:00.000Z"
                                      "store.com").
    vm_compute. reflexivity.
Defined.

End Recommendations.

(* ================================================================= *)
(** ** What the normaliser and the classifier ignore *)

Section Insensitive.

Lemma append_assoc (a b c : string) : (a ++ b) ++ c = a ++ (b ++ c).
Proof.
  induction a as [|x a IH]; cbn [append]; [reflexivity | now rewrite IH].
Qed.

Lemma isWhiteSpace_lowerChar (c : ascii) :
  JS.isWhiteSpace (JS.lowerChar c) = JS.isWhiteSpace c.
Proof.
  destruct c as [[] [] [] [] [] [] [] []]; vm_compute; reflexivity.
Qed.

Lemma toLowerCase_idempotent (s : string) :
  JS.toLowerCase (JS.toLowerCase s) = JS.toLowerCase s.
Proof. apply toLowerCase_fixed, everyChar_toLowerCase. Qed.

Lemma toLowerCase_append (a b : string) :
  JS.toLowerCase (a ++ b) = JS.toLowerCase a ++ JS.toLowerCase b.
Proof.
  induction a as [|x a IH]; cbn [append JS.toLowerCase];
    [reflexivity | now rewrite IH].
Qed.

Lemma toLowerCase_length (s : string) :
  String.length (JS.toLowerCase s) = String.length s.
Proof.
  induction s as [|c s IH]; cbn [JS.toLowerCase String.length];
    [reflexivity | now rewrite IH].
Qed.

Lemma trimStart_toLowerCase (s : string) :
  JS.trimStart (JS.toLowerCase s) = JS.toLowerCase (JS.trimStart s).
Proof.
  induction s as [|c s IH]; cbn [JS.toLowerCase JS.trimStart].
  - reflexivity.
  - rewrite isWhiteSpace_lowerChar.
    destruct (JS.isWhiteSpace c); [exact IH | reflexivity].
Qed.

Lemma trimEnd_toLowerCase (s : string) :
  JS.trimEnd (JS.toLowerCase s) = JS.toLowerCase (JS.trimEnd s).
Proof.
  induction s as [|c s IH]; cbn [JS.toLowerCase JS.trimEnd].
  - reflexivity.
  - rewrite IH, isWhiteSpace_lowerChar.
    destruct (JS.trimEnd s); cbn [JS.toLowerCase];
      [destruct (JS.isWhiteSpace c)|]; reflexivity.
Qed.

Lemma trim_toLowerCase (s : string) :
  JS.trim (JS.toLowerCase s) = JS.toLowerCase (JS.trim s).
Proof.
  unfold JS.trim. now rewrite trimStart_toLowerCase, trimEnd_toLowerCase.
Qed.

Lemma trimEnd_kept (c : ascii) (s : string) :
  JS.isWhiteSpace c = false ->
  JS.trimEnd (String c s) = String c (JS.trimEnd s).
Proof.
  intros H. cbn [JS.trimEnd]. rewrite H. now destruct (JS.trimEnd s).
Qed.

Lemma trimEnd_idempotent (s : string) :
  JS.trimEnd (JS.trimEnd s) = JS.trimEnd s.
Proof.
  induction s as [|c s IH]; cbn [JS.trimEnd]; [reflexivity|].
  destruct (JS.trimEnd s) as [|a kept] eqn:E.
  - destruct (JS.isWhiteSpace c) eqn:W; [reflexivity|].
    now rewrite trimEnd_kept.
  - cbn [JS.trimEnd] in *. now rewrite IH.
Qed.

Lemma trimStart_idempotent (s : string) :
  JS.trimStart (JS.trimStart s) = JS.trimStart s.
Proof.
  induction s as [|c s IH]; cbn [JS.trimStart]; [reflexivity|].
  destruct (JS.isWhiteSpace c) eqn:W; [exact IH|].
  cbn [JS.trimStart]. now rewrite W.
Qed.

(** Trimming the end of a string that starts with no white space leaves
    its start alone. *)
Lemma trimStart_trimEnd (s : string) :
  JS.trimStart s = s -> JS.trimStart (JS.trimEnd s) = JS.trimEnd s.
Proof.
  destruct s as [|c s]; [reflexivity|].
  cbn [JS.trimStart].
  destruct (JS.isWhiteSpace c) eqn:W.
  - intros H. exfalso.
    destruct (trimStart_length s) as [E | L].
    + rewrite E in H. apply (f_equal String.length) in H.
      cbn [String.length] in H. lia.
    + rewrite H in L. cbn [String.length] in L. lia.
  - intros _. rewrite trimEnd_kept by exact W.
    cbn [JS.trimStart]. now rewrite W.
Qed.

Lemma trim_idempotent (s : string) : JS.trim (JS.trim s) = JS.trim s.
Proof.
  unfold JS.trim.
  rewrite (trimStart_trimEnd (JS.trimStart s)) by apply trimStart_idempotent.
  apply trimEnd_idempotent.
Qed.

Lemma cleanDomain_toLowerCase (s : string) :
  cleanDomain (JS.toLowerCase s) = cleanDomain s.
Proof.
  unfold cleanDomain. now rewrite trim_toLowerCase, toLowerCase_idempotent.
Qed.

Lemma cleanDomain_trim (s : string) : cleanDomain (JS.trim s) = cleanDomain s.
Proof. unfold cleanDomain. now rewrite trim_idempotent. Qed.

Lemma assessment_of_cleaned (now a b : string) :
  cleanDomain a = cleanDomain b ->
  performSecurityAssessment now a = performSecurityAssessment now b.
Proof.
  intros H. unfold performSecurityAssessment. now rewrite H.
Qed.

(** X10.  The assessment ignores the letter case of its input and the
    white space around it: lower-casing or trimming the input first gives
    the same report. *)
Theorem assessment_ignores_case_and_spaces (now s : string) :
  performSecurityAssessment now (JS.toLowerCase s)
  = performSecurityAssessment now s
  /\ performSecurityAssessment now (JS.trim s)
     = performSecurityAssessment now s
  /\ performSecurityAssessment now (JS.toLowerCase (JS.trim s))
     = performSecurityAssessment now s.
Proof.
  repeat split; apply assessment_of_cleaned.
  - apply cleanDomain_toLowerCase.
  - apply cleanDomain_trim.
  - now rewrite cleanDomain_toLowerCase, cleanDomain_trim.
Qed.

Lemma splitHead_length (sep : ascii) (s : string) :
  (String.length (JS.splitHead sep s) <= String.length s)%nat.
Proof.
  induction s as [|c s IH]; cbn [JS.splitHead]; [lia|].
  destruct (Ascii.eqb c sep); cbn [String.length]; lia.
Qed.

Lemma stripSchemeWww_length (s : string) :
  (String.length (JS.stripSchemeWww s) <= String.length s)%nat.
Proof.
  unfold JS.stripSchemeWww. cbv zeta.
  etransitivity; [apply stripPrefix_length|].
  destruct (JS.dropPrefix "https://" s) eqn:E.
  - apply dropPrefix_length in E. lia.
  - apply stripPrefix_length.
Qed.

Lemma no_slash_no_prefix (pre s : string) :
  everyChar (isNot "/") s = true ->
  everyChar (isNot "/") pre = false ->
  JS.startsWith s pre = false.
Proof.
  intros Hs Hpre. unfold JS.startsWith.
  destruct (JS.dropPrefix pre s) eqn:E; [|reflexivity].
  apply dropPrefix_append in E. subst s. exfalso.
  revert Hs Hpre. clear.
  induction pre as [|a pre IH]; cbn [append everyChar]; intros Hs Hpre.
  - discriminate.
  - apply andb_true_iff in Hs. destruct Hs as [Ha Hs].
    rewrite Ha in Hpre. cbn [andb] in Hpre. now apply IH.
Qed.

(** X11.  Whatever the input, the cleaned domain is lower-case, contains
    neither "/" nor "?", starts with neither "http://" nor "https://", and
    is no longer than the trimmed, lower-cased input it is cut from. *)
Theorem cleanDomain_output_shape (s : string) :
  JS.toLowerCase (cleanDomain s) = cleanDomain s
  /\ everyChar (isNot "/") (cleanDomain s) = true
  /\ everyChar (isNot "?") (cleanDomain s) = true
  /\ JS.startsWith (cleanDomain s) "http://" = false
  /\ JS.startsWith (cleanDomain s) "https://" = false
  /\ (String.length (cleanDomain s)
      <= String.length (JS.toLowerCase (JS.trim s)))%nat.
Proof.
  destruct (cleanDomain_shape s) as (Hl & Hs & Hq).
  repeat split; try assumption.
  - now apply toLowerCase_fixed.
  - now apply no_slash_no_prefix.
  - now apply no_slash_no_prefix.
  - unfold cleanDomain.
    pose proof (splitHead_length "?"
      (JS.splitHead "/" (JS.stripSchemeWww (JS.toLowerCase (JS.trim s))))).
    pose proof (splitHead_length "/"
      (JS.stripSchemeWww (JS.toLowerCase (JS.trim s)))).
    pose proof (stripSchemeWww_length (JS.toLowerCase (JS.trim s))).
    lia.
Qed.

Lemma EndsWith_trans (a b c : string) :
  EndsWith a b -> EndsWith b c -> EndsWith a c.
Proof.
  intros [f ->] [g ->]. exists (f ++ g). now rewrite append_assoc.
Qed.

Lemma stripPrefix_cases (pre s : string) :
  JS.stripPrefix pre s = s \/ s = pre ++ JS.stripPrefix pre s.
Proof.
  unfold JS.stripPrefix.
  destruct (JS.dropPrefix pre s) eqn:E; [right | now left].
  now apply dropPrefix_append.
Qed.

(** The trust criterion on the normalised string, the ".edu" and ".gov"
    tests folded into the bare entries. *)
Lemma isTrustedDomain_iff (d : string) :
  isTrustedDomain d = true
  <-> In (trustNormalized d) trustedDomains
      \/ exists e, In e trustedDomains
                   /\ EndsWith (trustNormalized d) ("." ++ e).
Proof.
  rewrite isTrustedDomain_trustedAgainst, trustedAgainst_spec by discriminate.
  split.
  - intros [H | [H | [H | H]]]; [now left | right | right | now right].
    + exists "edu". split; [|exact H]. cbn. tauto.
    + exists "gov". split; [|exact H]. cbn. tauto.
  - intros [H | H]; [now left | now right; right; right].
Qed.

(** Stripping "www." from a string that ends with "." + entry leaves a
    string that is the entry or still ends with "." + entry. *)
Lemma stripPrefix_www_suffix (front e : string) :
  JS.stripPrefix "www." (front ++ "." ++ e) = e
  \/ EndsWith (JS.stripPrefix "www." (front ++ "." ++ e)) ("." ++ e).
Proof.
  unfold JS.stripPrefix.
  destruct (JS.dropPrefix "www." (front ++ "." ++ e)) as [rest|] eqn:E;
    [|right; now exists front].
  destruct front as [|a [|b [|c [|d front]]]];
    cbn [append JS.dropPrefix] in E;
    repeat match type of E with
           | context [Ascii.eqb ?x ?y] =>
               destruct (Ascii.eqb_spec x y) as [Heq | Hne];
               [try discriminate Heq; try subst | discriminate E]
           end;
    try discriminate E.
  - left. now injection E.
  - right. exists front. injection E as <-. reflexivity.
Qed.

(** X12.  Every subdomain of a trusted domain is trusted (with "www" as
    the added label: the domain behind one more "www."), and so is the
    domain in lower case. *)
Theorem trusted_subdomains (sub d : string) :
  isTrustedDomain d = true ->
  isTrustedDomain (sub ++ "." ++ d) = true
  /\ isTrustedDomain (JS.toLowerCase d) = true.
Proof.
  intros Ht. split.
  - apply isTrustedDomain_iff in Ht.
    assert (exists e, In e trustedDomains
                      /\ EndsWith ("." ++ JS.toLowerCase d) ("." ++ e))
      as (e & Hin & front & Hfront).
    { assert (EndsWith ("." ++ JS.toLowerCase d) ("." ++ trustNormalized d))
        as Hn.
      { unfold trustNormalized.
        destruct (stripPrefix_cases "www." (JS.toLowerCase d)) as [-> | E].
        - now exists "".
        - rewrite E at 1. now exists ".www". }
      destruct Ht as [Hin | (e & Hin & He)].
      - now exists (trustNormalized d).
      - exists e. split; [exact Hin|].
        apply (EndsWith_trans _ _ _ Hn).
        destruct He as [f ->]. now exists ("." ++ f). }
    apply isTrustedDomain_iff. unfold trustNormalized.
    rewrite toLowerCase_append.
    change (JS.toLowerCase ("." ++ d)) with ("." ++ JS.toLowerCase d).
    rewrite Hfront, <- append_assoc.
    destruct (stripPrefix_www_suffix (JS.toLowerCase sub ++ front) e)
      as [-> | H].
    + now left.
    + right. now exists e.
  - unfold isTrustedDomain, trustNormalized in *.
    now rewrite toLowerCase_idempotent.
Qed.

Lemma trusted_subdomains_witness :
  isTrustedDomain "GitHub.com" = true
  /\ isTrustedDomain ("Docs" ++ "." ++ "GitHub.com") = true
  /\ isTrustedDomain (JS.toLowerCase "GitHub.com") = true.
Proof.
  split.
  - vm_compute. reflexivity.
  - apply (trusted_subdomains "Docs" "GitHub.com").
    vm_compute. reflexivity.
Defined.

End Insensitive.

(* ================================================================= *)
(** ** Validation of the input *)

Section Validation.

Lemma everyChar_impl (p q : ascii -> bool) (s : string) :
  (forall c, p c = true -> q c = true) ->
  everyChar p s = true -> everyChar q s = true.
Proof.
  intros Hpq.
  induction s as [|c s IH]; cbn [everyChar]; intros H; [reflexivity|].
  apply andb_true_iff in H. destruct H as [Hc Hs].
  now rewrite (Hpq c Hc), IH.
Qed.

Lemma everyChar_append (p : ascii -> bool) (a b : string) :
  everyChar p (a ++ b) = everyChar p a && everyChar p b.
Proof.
  induction a as [|c a IH]; cbn [append everyChar]; [reflexivity|].
  now rewrite IH, andb_assoc.
Qed.

Local Ltac all_chars c :=
  destruct c as [[] [] [] [] [] [] [] []]; vm_compute;
  try reflexivity; intros; try reflexivity; discriminate.

Lemma isLetter_isLabelChar (c : ascii) :
  isLetter c = true -> isLabelChar c = true.
Proof. all_chars c. Qed.

Lemma isLabelChar_not_dot (c : ascii) :
  isLabelChar c = true -> isNot "." c = true.
Proof. all_chars c. Qed.

Lemma isLabelChar_isRawHostChar (c : ascii) :
  isLabelChar c = true -> isRawHostChar c = true.
Proof. all_chars c. Qed.

Lemma isRawHostChar_lower (c : ascii) :
  isRawHostChar c = true -> isHostChar (JS.lowerChar c) = true.
Proof. all_chars c. Qed.

Lemma isRawHostChar_not_space (c : ascii) :
  isRawHostChar c = true -> JS.isWhiteSpace c = false.
Proof. all_chars c. Qed.

Lemma isHostChar_plain (c : ascii) :
  isHostChar c = true ->
  isNot "/" c = true /\ isNot "?" c = true /\ isNot ":" c = true.
Proof.
  destruct c as [[] [] [] [] [] [] [] []]; vm_compute; intros H;
    try discriminate H; repeat split.
Qed.

Lemma isLetter_lowerChar (c : ascii) :
  isLetter (JS.lowerChar c) = isLetter c.
Proof. all_chars c. Qed.

Lemma isLabelChar_lowerChar (c : ascii) :
  isLabelChar (JS.lowerChar c) = isLabelChar c.
Proof. all_chars c. Qed.

Lemma lowerChar_eqb_dot (c : ascii) :
  Ascii.eqb (JS.lowerChar c) "." = Ascii.eqb c ".".
Proof. all_chars c. Qed.

Lemma lowerChar_eqb_slash (c : ascii) :
  Ascii.eqb (JS.lowerChar c) "/" = Ascii.eqb c "/".
Proof. all_chars c. Qed.

Lemma lowerChar_eqb_colon (c : ascii) :
  Ascii.eqb ":" (JS.lowerChar c) = Ascii.eqb ":" c.
Proof. all_chars c. Qed.

(** *** [split] and [dotted] *)

Lemma split_nonempty (sep : ascii) (s : string) : JS.split sep s <> [].
Proof.
  destruct s as [|c s]; cbn [JS.split]; [discriminate|].
  destruct (Ascii.eqb c sep); [discriminate|].
  destruct (JS.split sep s); discriminate.
Qed.

Lemma split_no_sep (sep : ascii) (s : string) :
  everyChar (isNot sep) s = true -> JS.split sep s = [s].
Proof.
  induction s as [|c s IH]; cbn [JS.split everyChar]; intros H;
    [reflexivity|].
  apply andb_true_iff in H. destruct H as [Hc Hs]. unfold isNot in Hc.
  destruct (Ascii.eqb c sep); [discriminate|].
  now rewrite (IH Hs).
Qed.

Lemma split_append (sep : ascii) (l rest : string) :
  everyChar (isNot sep) l = true ->
  JS.split sep (l ++ String sep rest) = l :: JS.split sep rest.
Proof.
  induction l as [|c l IH]; cbn [append JS.split everyChar]; intros H.
  - now rewrite Ascii.eqb_refl.
  - apply andb_true_iff in H. destruct H as [Hc Hs]. unfold isNot in Hc.
    destruct (Ascii.eqb c sep); [discriminate|].
    now rewrite (IH Hs).
Qed.

Lemma split_dotted (labels : list string) (tld : string) :
  Forall (fun l => everyChar (isNot ".") l = true) labels ->
  everyChar (isNot ".") tld = true ->
  JS.split "." (dotted labels tld) = (labels ++ [tld])%list.
Proof.
  intros Hl Ht.
  induction Hl as [|l labels Hl _ IH]; cbn [dotted app].
  - now apply split_no_sep.
  - change ("." ++ dotted labels tld) with (String "." (dotted labels tld)).
    now rewrite split_append, IH.
Qed.

Lemma dotted_split (s : string) (labels : list string) (tld : string) :
  JS.split "." s = (labels ++ [tld])%list -> s = dotted labels tld.
Proof.
  revert labels tld.
  induction s as [|c s IH]; intros labels tld; cbn [JS.split].
  - destruct labels as [|l labels]; cbn [app].
    + now intros [= <-].
    + intros [= _ H]. destruct labels; discriminate H.
  - destruct (Ascii.eqb_spec c ".") as [-> | Hc].
    + destruct labels as [|l labels]; cbn [app].
      * intros [= _ H]. now destruct (split_nonempty "." s).
      * intros [= <- H]. cbn [dotted append]. now rewrite (IH labels tld H).
    + destruct (JS.split "." s) as [|first others] eqn:E;
        [now destruct (split_nonempty "." s)|].
      destruct labels as [|l labels]; cbn [app].
      * intros [= <- ->]. cbn [dotted]. now rewrite (IH [] first eq_refl).
      * intros [= <- ->]. cbn [dotted append].
        now rewrite (IH (first :: labels) tld eq_refl).
Qed.

Lemma DomainShape_chars (s : string) :
  DomainShape s -> everyChar isRawHostChar s = true /\ s <> "".
Proof.
  intros (labels & tld & Hne & Hl & (_ & Ht) & ->). split.
  - clear Hne.
    induction Hl as [|l labels (_ & Hl) _ IH]; cbn [dotted].
    + apply (everyChar_impl isLetter); [|exact Ht].
      intros c Hc. now apply isLabelChar_isRawHostChar, isLetter_isLabelChar.
    + rewrite !everyChar_append, IH.
      rewrite (everyChar_impl _ _ _ isLabelChar_isRawHostChar Hl).
      reflexivity.
  - destruct Hl as [|l labels (Hl & _) _]; [contradiction|].
    cbn [dotted]. destruct l; [contradiction | discriminate].
Qed.

Lemma labelOk_RegexLabel (l : string) : labelOk l = true <-> RegexLabel l.
Proof.
  unfold labelOk, RegexLabel.
  rewrite andb_true_iff, negb_true_iff, String.eqb_neq. reflexivity.
Qed.

Lemma tldOk_RegexTld (t : string) : tldOk t = true <-> RegexTld t.
Proof.
  unfold tldOk, RegexTld. rewrite andb_true_iff, Nat.leb_le. reflexivity.
Qed.

(** The test accepts exactly the strings of the pattern's grammar; the
    lookahead [(?!:\/\/)] never decides. *)
Lemma domainRegexTest_spec (s : string) :
  domainRegexTest s = true <-> DomainShape s.
Proof.
  unfold domainRegexTest. split.
  - intros H. apply andb_true_iff in H. destruct H as [_ H].
    destruct (rev (JS.split "." s)) as [|tld [|l ls]] eqn:E;
      try discriminate H.
    apply andb_true_iff in H. destruct H as [Ht Hl].
    apply (f_equal (@rev string)) in E. rewrite rev_involutive in E.
    cbn [rev] in E.
    exists (rev ls ++ [l])%list, tld. repeat split.
    + now destruct (rev ls).
    + apply Forall_forall. intros x Hx. apply labelOk_RegexLabel.
      rewrite forallb_forall in Hl. apply Hl.
      apply in_app_or in Hx. destruct Hx as [Hx | [<- | []]].
      * right. now apply in_rev.
      * now left.
    + now apply tldOk_RegexTld.
    + now apply tldOk_RegexTld.
    + now apply dotted_split.
  - intros (labels & tld & Hne & Hl & Ht & ->).
    apply andb_true_iff. split.
    + destruct Hl as [|l labels (Hl & Hc) _]; [contradiction|].
      destruct l as [|c l]; [contradiction|].
      cbn [everyChar] in Hc. apply andb_true_iff in Hc.
      destruct Hc as [Hc _].
      cbn [dotted append]. unfold JS.startsWith. cbn [JS.dropPrefix].
      destruct (Ascii.eqb_spec ":" c) as [<- | _]; [|reflexivity].
      vm_compute in Hc. discriminate Hc.
    + rewrite split_dotted.
      * rewrite rev_app_distr. cbn [rev app].
        destruct (rev labels) as [|l ls] eqn:E.
        { apply (f_equal (@rev string)) in E.
          rewrite rev_involutive in E. contradiction. }
        apply andb_true_iff. split; [now apply tldOk_RegexTld|].
        apply forallb_forall. intros x Hx. apply labelOk_RegexLabel.
        rewrite Forall_forall in Hl. apply Hl.
        apply in_rev. now rewrite E.
      * eapply Forall_impl; [|exact Hl].
        intros l (_ & Hc).
        now apply (everyChar_impl _ _ _ isLabelChar_not_dot).
      * destruct Ht as (_ & Hc).
        apply (everyChar_impl isLetter); [|exact Hc].
        intros c H. now apply isLabelChar_not_dot, isLetter_isLabelChar.
Qed.

(** X13.  [isValidDomain] accepts an input exactly when what is left of
    it after the optional scheme and "www." (matched in lower case only),
    cut at the first "/", is one or more non-empty labels of letters,
    digits and hyphens, each followed by a dot, and then at least two
    letters. *)
Theorem isValidDomain_spec (d : string) :
  isValidDomain d = true
  <-> DomainShape (JS.splitHead "/" (JS.stripSchemeWww d)).
Proof. unfold isValidDomain. cbv zeta. apply domainRegexTest_spec. Qed.

End Validation.

(* ================================================================= *)
(** ** What a validated input is cleaned to *)

Section ValidThenClean.

Lemma toLowerCase_not_empty (s : string) : s <> "" -> JS.toLowerCase s <> "".
Proof. destruct s; [contradiction | discriminate]. Qed.

Lemma everyChar_toLowerCase_same (p : ascii -> bool) (s : string) :
  (forall c, p (JS.lowerChar c) = p c) ->
  everyChar p (JS.toLowerCase s) = everyChar p s.
Proof.
  intros Hp.
  induction s as [|c s IH]; cbn [JS.toLowerCase everyChar];
    [reflexivity | now rewrite Hp, IH].
Qed.

Lemma everyChar_host_lower (s : string) :
  everyChar isRawHostChar s = true ->
  everyChar isHostChar (JS.toLowerCase s) = true.
Proof.
  induction s as [|c s IH]; cbn [JS.toLowerCase everyChar]; intros H;
    [reflexivity|].
  apply andb_true_iff in H. destruct H as [Hc Hs].
  now rewrite (isRawHostChar_lower c Hc), IH.
Qed.

Lemma dotted_toLowerCase (labels : list string) (tld : string) :
  JS.toLowerCase (dotted labels tld)
  = dotted (map JS.toLowerCase labels) (JS.toLowerCase tld).
Proof.
  induction labels as [|l labels IH]; cbn [dotted map]; [reflexivity|].
  rewrite !toLowerCase_append, IH. reflexivity.
Qed.

(** The pattern does not tell the letter cases apart. *)
Lemma DomainShape_toLowerCase (s : string) :
  DomainShape s -> DomainShape (JS.toLowerCase s).
Proof.
  intros (labels & tld & Hne & Hl & (Hlen & Ht) & ->).
  exists (map JS.toLowerCase labels), (JS.toLowerCase tld).
  repeat split.
  - destruct labels; [contradiction | discriminate].
  - apply Forall_forall. intros x Hx. apply in_map_iff in Hx.
    destruct Hx as (l & <- & Hin).
    rewrite Forall_forall in Hl. destruct (Hl l Hin) as (Hl1 & Hl2).
    split; [now apply toLowerCase_not_empty|].
    now rewrite (everyChar_toLowerCase_same _ _ isLabelChar_lowerChar).
  - now rewrite toLowerCase_length.
  - now rewrite (everyChar_toLowerCase_same _ _ isLetter_lowerChar).
  - apply dotted_toLowerCase.
Qed.

Lemma dropPrefix_splitHead (sep : ascii) (pre x : string) :
  everyChar (isNot sep) pre = true ->
  JS.dropPrefix pre (JS.splitHead sep x)
  = option_map (JS.splitHead sep) (JS.dropPrefix pre x).
Proof.
  revert x.
  induction pre as [|a pre IH]; intros x Hpre;
    cbn [JS.dropPrefix everyChar] in *; [reflexivity|].
  apply andb_true_iff in Hpre. destruct Hpre as [Ha Hpre].
  destruct x as [|b x]; cbn [JS.splitHead]; [reflexivity|].
  destruct (Ascii.eqb_spec b sep) as [-> | Hb].
  - unfold isNot in Ha. destruct (Ascii.eqb a sep); [discriminate|].
    reflexivity.
  - destruct (Ascii.eqb a b); [now apply IH | reflexivity].
Qed.

(** Stripping a prefix without "/" and cutting at the first "/" commute. *)
Lemma stripPrefix_splitHead (sep : ascii) (pre x : string) :
  everyChar (isNot sep) pre = true ->
  JS.splitHead sep (JS.stripPrefix pre x)
  = JS.stripPrefix pre (JS.splitHead sep x).
Proof.
  intros Hpre. unfold JS.stripPrefix.
  rewrite (dropPrefix_splitHead sep pre x Hpre).
  now destruct (JS.dropPrefix pre x).
Qed.

Lemma splitHead_toLowerCase (x : string) :
  JS.splitHead "/" (JS.toLowerCase x) = JS.toLowerCase (JS.splitHead "/" x).
Proof.
  induction x as [|c x IH]; cbn [JS.toLowerCase JS.splitHead];
    [reflexivity|].
  rewrite lowerChar_eqb_slash.
  destruct (Ascii.eqb c "/"); cbn [JS.toLowerCase];
    [reflexivity | now rewrite IH].
Qed.

(** White space at the end of the input lies behind the first "/" when
    the part before it is made of host characters. *)
Lemma splitHead_trimEnd (r : string) :
  everyChar isRawHostChar (JS.splitHead "/" r) = true ->
  JS.splitHead "/" (JS.trimEnd r) = JS.splitHead "/" r.
Proof.
  induction r as [|c r IH]; [reflexivity|].
  cbn [JS.splitHead].
  destruct (Ascii.eqb_spec c "/") as [-> | Hc].
  - intros _. rewrite trimEnd_kept by reflexivity. reflexivity.
  - cbn [everyChar]. intros H. apply andb_true_iff in H.
    destruct H as [Hh Hr].
    rewrite trimEnd_kept by now apply isRawHostChar_not_space.
    cbn [JS.splitHead].
    destruct (Ascii.eqb_spec c "/"); [contradiction|].
    now rewrite IH.
Qed.

Lemma afterScheme_https (x : string) : afterScheme ("https://" ++ x) = x.
Proof. reflexivity. Qed.

Lemma afterScheme_http (x : string) : afterScheme ("http://" ++ x) = x.
Proof. reflexivity. Qed.

(** A string whose part before the first "/" has no ":" has no scheme. *)
Lemma afterScheme_host (y : string) :
  everyChar isHostChar (JS.splitHead "/" y) = true -> afterScheme y = y.
Proof.
  intros H. unfold afterScheme, JS.stripPrefix.
  destruct (JS.dropPrefix "https://" y) eqn:E1.
  { apply dropPrefix_append in E1. subst y. vm_compute in H. discriminate. }
  destruct (JS.dropPrefix "http://" y) eqn:E2; [|reflexivity].
  apply dropPrefix_append in E2. subst y. vm_compute in H. discriminate.
Qed.

Lemma trim_after_literal (pre r : string) :
  pre <> "" ->
  everyChar (fun c => negb (JS.isWhiteSpace c)) pre = true ->
  JS.trim (pre ++ r) = pre ++ JS.trimEnd r.
Proof.
  intros Hne Hpre. unfold JS.trim.
  assert (JS.trimStart (pre ++ r) = pre ++ r) as ->.
  { destruct pre as [|c pre]; [contradiction|].
    cbn [everyChar] in Hpre. apply andb_true_iff in Hpre.
    destruct Hpre as [Hc _]. apply negb_true_iff in Hc.
    cbn [append JS.trimStart]. now rewrite Hc. }
  clear Hne.
  induction pre as [|c pre IH]; cbn [append]; [reflexivity|].
  cbn [everyChar] in Hpre. apply andb_true_iff in Hpre.
  destruct Hpre as [Hc Hpre]. apply negb_true_iff in Hc.
  rewrite trimEnd_kept by exact Hc. now rewrite IH.
Qed.

(** The host part of the trimmed, lower-cased input is the lower-cased
    host part of the input, when the latter is made of host characters. *)
Lemma host_of_cleaned (d : string) :
  everyChar isRawHostChar (JS.splitHead "/" (afterScheme d)) = true ->
  JS.splitHead "/" (afterScheme d) <> "" ->
  JS.splitHead "/" (afterScheme (JS.toLowerCase (JS.trim d)))
  = JS.toLowerCase (JS.splitHead "/" (afterScheme d)).
Proof.
  unfold afterScheme at 1 2 4. unfold JS.stripPrefix.
  destruct (JS.dropPrefix "https://" d) as [r|] eqn:E1.
  { apply dropPrefix_append in E1. subst d. intros Hh _.
    rewrite trim_after_literal by (discriminate || reflexivity).
    rewrite toLowerCase_append.
    change (JS.toLowerCase "https://") with "https://".
    rewrite afterScheme_https, splitHead_toLowerCase.
    now rewrite splitHead_trimEnd. }
  destruct (JS.dropPrefix "http://" d) as [r|] eqn:E2.
  { apply dropPrefix_append in E2. subst d. intros Hh _.
    rewrite trim_after_literal by (discriminate || reflexivity).
    rewrite toLowerCase_append.
    change (JS.toLowerCase "http://") with "http://".
    rewrite afterScheme_http, splitHead_toLowerCase.
    now rewrite splitHead_trimEnd. }
  intros Hh Hne.
  assert (JS.trim d = JS.trimEnd d) as ->.
  { unfold JS.trim. f_equal.
    destruct d as [|c d]; [reflexivity|].
    cbn [JS.splitHead] in Hh, Hne. cbn [JS.trimStart].
    destruct (Ascii.eqb c "/"); [contradiction|].
    cbn [everyChar] in Hh. apply andb_true_iff in Hh.
    destruct Hh as [Hc _].
    now rewrite (isRawHostChar_not_space c Hc). }
  assert (JS.splitHead "/" (JS.toLowerCase (JS.trimEnd d))
          = JS.toLowerCase (JS.splitHead "/" d)) as E.
  { now rewrite splitHead_toLowerCase, splitHead_trimEnd. }
  rewrite afterScheme_host; [exact E|].
  rewrite E. now apply everyChar_host_lower.
Qed.

Lemma cleanDomain_of_host (d : string) :
  everyChar isRawHostChar (JS.splitHead "/" (afterScheme d)) = true ->
  JS.splitHead "/" (afterScheme d) <> "" ->
  cleanDomain d
  = JS.stripPrefix "www."
      (JS.toLowerCase (JS.splitHead "/" (afterScheme d))).
Proof.
  intros Hh Hne. unfold cleanDomain.
  change (JS.stripSchemeWww (JS.toLowerCase (JS.trim d)))
    with (JS.stripPrefix "www." (afterScheme (JS.toLowerCase (JS.trim d)))).
  rewrite stripPrefix_splitHead by reflexivity.
  rewrite host_of_cleaned by assumption.
  apply splitHead_fixed, everyChar_stripPrefix.
  apply (everyChar_impl isHostChar);
    [intros c Hc; apply (isHostChar_plain c Hc) |].
  now apply everyChar_host_lower.
Qed.

(** The cleaned domain of an accepted input, against its host part. *)
Lemma cleaned_host_cases (d : string) :
  isValidDomain d = true ->
  let host := JS.splitHead "/" (JS.stripSchemeWww d) in
  DomainShape host
  /\ (cleanDomain d = JS.toLowerCase host
      \/ JS.toLowerCase host = "www." ++ cleanDomain d).
Proof.
  intros Hvalid host.
  unfold isValidDomain in Hvalid. cbv zeta in Hvalid.
  apply domainRegexTest_spec in Hvalid. fold host in Hvalid.
  split; [exact Hvalid|].
  destruct (DomainShape_chars _ Hvalid) as (Hchars & Hne).
  assert (host = JS.stripPrefix "www." (JS.splitHead "/" (afterScheme d)))
    as Ehost.
  { subst host.
    change (JS.stripSchemeWww d)
      with (JS.stripPrefix "www." (afterScheme d)).
    now apply stripPrefix_splitHead. }
  set (raw := JS.splitHead "/" (afterScheme d)) in *.
  assert (everyChar isRawHostChar raw = true /\ raw <> "") as (Hraw & Hrne).
  { destruct (stripPrefix_cases "www." raw) as [E | E].
    - rewrite <- Ehost in E. now rewrite <- E.
    - rewrite <- Ehost in E. rewrite E, everyChar_append, Hchars.
      now split. }
  pose proof (cleanDomain_of_host d Hraw Hrne) as Eclean. fold raw in Eclean.
  destruct (stripPrefix_cases "www." raw) as [E | E].
  - rewrite <- Ehost in E. rewrite Eclean, <- E.
    destruct (stripPrefix_cases "www." (JS.toLowerCase host)) as [E' | E'];
      [now left | now right].
  - rewrite <- Ehost in E. left. rewrite Eclean, E, toLowerCase_append.
    reflexivity.
Qed.

(** Either way the cleaned domain is a non-empty run of host characters. *)
Lemma cleaned_host_chars (host cleaned : string) :
  DomainShape host ->
  cleaned = JS.toLowerCase host \/ JS.toLowerCase host = "www." ++ cleaned ->
  cleaned <> "" /\ everyChar isHostChar cleaned = true.
Proof.
  intros Hshape Hcases.
  pose proof (DomainShape_toLowerCase _ Hshape) as Hlow.
  destruct (DomainShape_chars _ Hshape) as (Hchars & Hne).
  pose proof (everyChar_host_lower host Hchars) as Hhost.
  destruct Hcases as [E | E].
  - rewrite E. split; [now apply toLowerCase_not_empty | exact Hhost].
  - split.
    + intros Hempty. rewrite Hempty in E. rewrite E in Hlow.
      apply domainRegexTest_spec in Hlow. vm_compute in Hlow.
      discriminate Hlow.
    + rewrite E, everyChar_append in Hhost.
      now apply andb_true_iff in Hhost.
Qed.

(** X14.  For an input that [isValidDomain] accepts, the cleaned domain
    is the lower-cased host part of the input, or that host part without a
    leading "www." (which validation leaves in place when it is not in
    lower case); it is never empty and consists of lower-case letters,
    digits, hyphens and dots only. *)
Theorem valid_input_cleaned (d : string) :
  isValidDomain d = true ->
  let host := JS.splitHead "/" (JS.stripSchemeWww d) in
  (cleanDomain d = JS.toLowerCase host
   \/ JS.toLowerCase host = "www." ++ cleanDomain d)
  /\ cleanDomain d <> ""
  /\ everyChar isHostChar (cleanDomain d) = true.
Proof.
  intros Hvalid host.
  destruct (cleaned_host_cases d Hvalid) as (Hshape & Hcases).
  fold host in Hshape, Hcases.
  split; [exact Hcases|].
  exact (cleaned_host_chars host (cleanDomain d) Hshape Hcases).
Qed.

Lemma valid_input_cleaned_witness :
  isValidDomain "WWW.Example.com/a b" = true
  /\ let host := JS.splitHead "/" (JS.stripSchemeWww "WWW.Example.com/a b") in
     (cleanDomain "WWW.Example.com/a b" = JS.toLowerCase host
      \/ JS.toLowerCase host = "www." ++ cleanDomain "WWW.Example.com/a b")
     /\ cleanDomain "WWW.Example.com/a b" <> ""
     /\ everyChar isHostChar (cleanDomain "WWW.Example.com/a b") = true.
Proof.
  split.
  - vm_compute. reflexivity.
  - apply (valid_input_cleaned "WWW.Example.com/a b").
    vm_compute. reflexivity.
Defined.

(** The cleaned domain of an accepted input need not be accepted itself:
    "WWW.com" is valid and is assessed as the domain "com". *)
Example valid_input_cleaned_to_tld :
  isValidDomain "WWW.com" = true
  /\ cleanDomain "WWW.com" = "com"
  /\ isValidDomain (cleanDomain "WWW.com") = false.
Proof. vm_compute. repeat split; reflexivity. Qed.

End ValidThenClean.

(* ================================================================= *)
(** ** The exported document *)

Section PdfCells.

Import PdfExport.

Lemma days_text_not_NA (d : Z) :
  30 <= d <= 364 -> JS.numberToString d ++ " days" <> "N/A".
Proof.
  intros Hd. apply String.eqb_neq.
  assert (forallb (fun d => negb (JS.numberToString d ++ " days" =? "N/A"))
                  (countFrom 30 335) = true) as Hall
    by (vm_compute; reflexivity).
  rewrite forallb_forall in Hall.
  apply negb_true_iff, Hall, countFrom_In. lia.
Qed.

(** X15.  In the exported document of a report the "Certificate Expiry"
    cell reads "N/A" exactly when the certificate is not Valid; for a
    Valid certificate it shows the expiry, between 30 and 364, followed by
    " days": the truthiness test on the expiry never hides a value. *)
Theorem pdf_expiry_cell (now s : string) :
  let r := performSecurityAssessment now s in
  (expiryCell r = "N/A" <-> certificateStatus (ssl r) <> Valid)
  /\ (certificateStatus (ssl r) = Valid ->
      exists d, 30 <= d <= 364
                /\ expiryDays (ssl r) = Some d
                /\ expiryCell r = JS.numberToString d ++ " days").
Proof.
  intros r. subst r. unfold expiryCell.
  rewrite report_certificateStatus, report_expiryDays.
  destruct (certificateOf_cases (hasSSLOf s) (trustedInput s) (hashOf s)
              (hashOf_nonneg s))
    as [(d & -> & Hd & _ & _) | [-> | (-> & _ & _)]]; cbn [fst snd].
  - destruct (Z.eqb_spec d 0) as [-> | _]; [lia|].
    split; [split|].
    + intros H. exfalso. now apply (days_text_not_NA d Hd).
    + intros H. now contradiction H.
    + intros _. exists d. now repeat split.
  - split; [split|]; intros; try discriminate; reflexivity.
  - split; [split|]; intros; try discriminate; reflexivity.
Qed.

Lemma replaceChar_length (c d : ascii) (s : string) :
  String.length (JS.replaceChar c d s) = String.length s.
Proof.
  induction s as [|a s IH]; cbn [JS.replaceChar String.length];
    [reflexivity | now rewrite IH].
Qed.

Lemma replaceChar_free (c d : ascii) (s : string) :
  isNot c d = true -> everyChar (isNot c) (JS.replaceChar c d s) = true.
Proof.
  intros Hd.
  induction s as [|a s IH]; cbn [JS.replaceChar everyChar]; [reflexivity|].
  rewrite IH, andb_true_r.
  destruct (Ascii.eqb a c) eqn:E; [exact Hd|].
  unfold isNot. now rewrite E.
Qed.

Lemma replaceChar_everyChar (p : ascii -> bool) (c d : ascii) (s : string) :
  p d = true -> everyChar p s = true ->
  everyChar p (JS.replaceChar c d s) = true.
Proof.
  intros Hd.
  induction s as [|a s IH]; cbn [JS.replaceChar everyChar]; intros H;
    [reflexivity|].
  apply andb_true_iff in H. destruct H as [Ha Hs].
  rewrite (IH Hs), andb_true_r.
  now destruct (Ascii.eqb a c).
Qed.

(** X16.  The report of an input that [isValidDomain] accepts is saved
    under "security-report-" + part + "-" + date + ".pdf", where the part
    is the cleaned domain with its dots turned into hyphens: as long as
    the domain, not empty, made of lower-case letters, digits and hyphens
    only. *)
Theorem pdf_filename_of_valid_input (now exportNow d : string) :
  isValidDomain d = true ->
  let part := JS.replaceChar "." "-" (cleanDomain d) in
  filename exportNow (performSecurityAssessment now d)
  = "security-report-" ++ part ++ "-" ++ JS.splitHead "T" exportNow ++ ".pdf"
  /\ String.length part = String.length (cleanDomain d)
  /\ part <> ""
  /\ everyChar isHostChar part = true
  /\ everyChar (isNot ".") part = true.
Proof.
  intros Hvalid part.
  destruct (cleaned_host_cases d Hvalid) as (Hshape & Hcases).
  destruct (cleaned_host_chars _ _ Hshape Hcases) as (Hne & Hchars).
  unfold filename. rewrite report_domain. fold part.
  repeat split.
  - apply replaceChar_length.
  - intros H. apply Hne.
    apply (f_equal String.length) in H. subst part.
    rewrite replaceChar_length in H.
    destruct (cleanDomain d); [reflexivity | discriminate H].
  - now apply replaceChar_everyChar.
  - now apply replaceChar_free.
Qed.

Lemma pdf_filename_of_valid_input_witness :
  isValidDomain "https://www.mit.edu/research" = true
  /\ let part := JS.replaceChar "." "-"
                   (cleanDomain "https://www.mit.edu/research") in
     filename "2024-05-02T10:00:00.000Z"
              (performSecurityAssessment "2024-05-01T09:30:00.000Z"
                                         "https://www.mit.edu/research")
     = "security-report-" ++ part ++ "-"
         ++ JS.splitHead "T" "2024-05-02T10:00:00.000Z" ++ ".pdf"
     /\ String.length part
        = String.length (cleanDomain "https://www.mit.edu/research")
     /\ part <> ""
     /\ everyChar isHostChar part = true
     /\ everyChar (isNot ".") part = true.
Proof.
  split.
  - vm_compute. reflexivity.
  - apply (pdf_filename_of_valid_input "2024-05-01T09:30:00.000Z"
             "2024-05-02T10:00:00.000Z" "https://www.mit.edu/research").
    vm_compute. reflexivity.
Defined.

End PdfCells.

(* ================================================================= *)
(** ** The summary view *)

Section Summary.

Import ReportSummary.

Lemma indexOf_bounds (a : list string) (v : string) :
  -1 <= JS.indexOf a v < Z.of_nat (List.length a).
Proof.
  induction a as [|x a IH]; cbn [JS.indexOf List.length]; [lia|].
  destruct (x =? v); [lia|].
  destruct (Z.ltb_spec (JS.indexOf a v) 0); lia.
Qed.

Lemma indexOf_app_in (pre rest : list string) (v : string) :
  In v pre -> JS.indexOf (pre ++ rest) v = JS.indexOf pre v.
Proof.
  induction pre as [|x pre IH]; cbn [In app JS.indexOf]; [contradiction|].
  intros [-> | Hin].
  - now rewrite String.eqb_refl.
  - destruct (x =? v); [reflexivity|]. now rewrite IH.
Qed.

(** Removing the elements that are not their own first occurrence: what
    is kept of [rest], standing behind [pre] in the array, has no
    duplicates and avoids [pre]. *)
Lemma first_occurrences (all rest pre : list string) :
  all = (pre ++ rest)%list ->
  let kept := JS.filterFrom (fun v i => (JS.indexOf all v =? i)%Z)
                            (Z.of_nat (List.length pre)) rest in
  NoDup kept /\ forall v, In v kept -> In v rest /\ ~ In v pre.
Proof.
  revert pre.
  induction rest as [|x rest IH]; intros pre Hall; cbn [JS.filterFrom].
  - split; [constructor | contradiction].
  - assert (all = ((pre ++ [x]) ++ rest)%list) as Hall'
      by now rewrite <- app_assoc.
    specialize (IH (pre ++ [x])%list Hall').
    rewrite length_app in IH. cbn [List.length] in IH.
    replace (Z.of_nat (List.length pre + 1))
      with (Z.of_nat (List.length pre) + 1) in IH by lia.
    cbv zeta in IH. destruct IH as (Hnd & Hin).
    assert (forall v, In v (JS.filterFrom
                              (fun v i => (JS.indexOf all v =? i)%Z)
                              (Z.of_nat (List.length pre) + 1) rest) ->
                      In v (x :: rest) /\ ~ In v pre /\ v <> x) as Hin'.
    { intros v Hv. destruct (Hin v Hv) as (H1 & H2). repeat split.
      - now right.
      - intros H. apply H2, in_or_app. now left.
      - intros ->. apply H2, in_or_app. right. now left. }
    destruct (Z.eqb_spec (JS.indexOf all x) (Z.of_nat (List.length pre)))
      as [E | E].
    + split.
      * constructor; [|exact Hnd].
        intros H. now destruct (Hin' x H) as (_ & _ & Hx).
      * intros v [<- | Hv].
        -- split; [now left|]. intros Hpre.
           rewrite Hall, indexOf_app_in in E by exact Hpre.
           pose proof (indexOf_bounds pre x). lia.
        -- destruct (Hin' v Hv) as (H1 & H2 & _). now split.
    + split; [exact Hnd|].
      intros v Hv. destruct (Hin' v Hv) as (H1 & H2 & _). now split.
Qed.

Lemma NoDup_sliceTo (n : nat) (a : list string) :
  NoDup a -> NoDup (JS.sliceTo n a).
Proof.
  unfold JS.sliceTo. revert n.
  induction a as [|x a IH]; intros n Hnd; destruct n; cbn [firstn];
    try constructor.
  - inversion Hnd as [|? ? Hx Ha]; subst.
    intros H. apply Hx. revert H. clear.
    revert n. induction a as [|y a IH]; intros n; destruct n; cbn [firstn In];
      try contradiction.
    intros [-> | H]; [now left | right; now apply (IH n)].
  - inversion Hnd; subst. now apply IH.
Qed.

(** X17.  Whatever the report, the technical controls of the summary
    view hold no text twice and are at most eight. *)
Theorem technicalControls_distinct (report : SecurityReport) :
  NoDup (technicalControls report)
  /\ (List.length (technicalControls report) <= 8)%nat.
Proof.
  unfold technicalControls. cbv zeta. split.
  - apply NoDup_sliceTo.
    match goal with
    | |- NoDup (JS.filterFrom _ 0 ?all) =>
        apply (first_occurrences all all [] eq_refl)
    end.
  - apply firstn_le_length.
Qed.

Local Ltac on_flags now s :=
  destruct (report_built now s)
    as (hasSSL & cs & hsts & csp & xfo & xcto & dnsReachable
        & (E1 & E2 & E3 & E4 & E5 & E6 & E7) & Hcs);
  rewrite ?E7, ?E6, ?E5, ?E4, ?E3, ?E2, ?E1;
  clear E1 E2 E3 E4 E5 E6 E7;
  destruct hasSSL;
    [ clear Hcs; destruct cs | rewrite (Hcs eq_refl); clear Hcs ];
    destruct hsts, csp, xfo, xcto, dnsReachable.

(** X18.  For a report of the engine the technical controls start with
    all its recommendations, in order, followed by the certificate
    deployment advice when SSL is unavailable: neither the removal of
    duplicates nor the cut to eight entries drops one of them. *)
Theorem technicalControls_keep_recommendations (now s : string) :
  let r := performSecurityAssessment now s in
  exists rest,
    technicalControls r
    = (recommendations r
       ++ (if available (ssl r) then []
           else ["Deploy SSL/TLS certificates from a trusted Certificate Authority"])
       ++ rest)%list.
Proof.
  intros r. subst r. unfold technicalControls. cbv zeta.
  on_flags now s; vm_compute; eexists; reflexivity.
Qed.

(** The summary's conditions for the two header risks, on the engine's
    header array. *)
Lemma header_risk_conditions (hs : list SecurityHeader)
    (hsts csp xfo xcto : bool) :
  hs = headersWith hsts csp xfo xcto ->
  existsb (fun h => JS.includes (name h) "Content-Security-Policy")
          (filter (fun h => negb (present h)) hs) = negb csp
  /\ existsb (fun h => JS.includes (name h) "X-Frame-Options")
             (filter (fun h => negb (present h)) hs) = negb xfo.
Proof.
  intros ->. destruct hsts, csp, xfo, xcto; vm_compute; split; reflexivity.
Qed.

(** Whatever the report: one risk per condition that holds, and the
    "No critical risks identified" entry alone when none does. *)
Lemma identifiedRisks_shape (report : SecurityReport) :
  let n :=
    (Nat.b2n (negb (available (ssl report)))
     + Nat.b2n (CertificateStatus_eqb (certificateStatus (ssl report)) Expired)
     + Nat.b2n (existsb
                  (fun h => JS.includes (name h) "Content-Security-Policy")
                  (filter (fun h => negb (present h)) (headers report)))
     + Nat.b2n (existsb (fun h => JS.includes (name h) "X-Frame-Options")
                  (filter (fun h => negb (present h)) (headers report)))
     + Nat.b2n (negb (reachable (dns report))))%nat in
  (n = 0%nat -> identifiedRisks report = [noCriticalRisk])
  /\ (n <> 0%nat ->
      ~ In noCriticalRisk (identifiedRisks report)
      /\ List.length (identifiedRisks report) = n).
Proof.
  cbv zeta. remember (identifiedRisks report) as risks eqn:Erisks.
  unfold identifiedRisks in Erisks. cbv zeta in Erisks.
  destruct (negb (available (ssl report)));
    destruct (CertificateStatus_eqb (certificateStatus (ssl report)) Expired);
    destruct (existsb
                (fun h => JS.includes (name h) "Content-Security-Policy")
                (filter (fun h => negb (present h)) (headers report)));
    destruct (existsb (fun h => JS.includes (name h) "X-Frame-Options")
                (filter (fun h => negb (present h)) (headers report)));
    destruct (negb (reachable (dns report)));
    vm_compute in Erisks; subst risks;
    cbn [Nat.b2n Nat.add List.length];
    (split; intros H);
    try discriminate H; try reflexivity; try (now contradiction H);
    (split; [|reflexivity]);
    cbn [In]; intuition discriminate.
Qed.

(** X19.  The risks the summary view lists for a report of the engine
    are between one and four; "No critical risks identified" is listed
    only alone, whenever the score is 100, and only for reports the engine
    rates Low (score 70 or more). *)
Theorem identifiedRisks_of_report (now s : string) :
  let r := performSecurityAssessment now s in
  (1 <= List.length (identifiedRisks r) <= 4)%nat
  /\ (In noCriticalRisk (identifiedRisks r)
      <-> identifiedRisks r = [noCriticalRisk])
  /\ (identifiedRisks r = [noCriticalRisk] ->
      70 <= riskScore r /\ overallRisk r = Low)
  /\ (riskScore r = 100 -> identifiedRisks r = [noCriticalRisk]).
Proof.
  intros r. subst r.
  pose proof (identifiedRisks_shape (performSecurityAssessment now s))
    as Hshape.
  cbv zeta in Hshape.
  destruct (report_built now s)
    as (hasSSL & cs & hsts & csp & xfo & xcto & dnsReachable
        & (E1 & E2 & E3 & E4 & E5 & E6 & E7) & Hcs).
  destruct (header_risk_conditions _ _ _ _ _ E3) as (Ecsp & Exfo).
  rewrite Ecsp, Exfo, E1, E2, E4 in Hshape.
  rewrite E6, E5.
  set (risks := identifiedRisks _) in *. clearbody risks.
  clear E1 E2 E3 E4 E5 E6 E7 Ecsp Exfo.
  destruct Hshape as (Hnone & Hsome).
  destruct hasSSL;
    [ clear Hcs; destruct cs | rewrite (Hcs eq_refl) in *; clear Hcs ];
    destruct hsts, csp, xfo, xcto, dnsReachable;
    cbn [Nat.b2n negb CertificateStatus_eqb Nat.add] in Hnone, Hsome;
    first
      [ rewrite (Hnone eq_refl);
        split; [cbn [List.length]; lia|];
        split; [split; intros _; [reflexivity | now left]|];
        split; [intros _; vm_compute; split; [discriminate | reflexivity]
               | intros _; reflexivity]
      | destruct (Hsome ltac:(discriminate)) as (Hnot & Hlen);
        split; [rewrite Hlen; lia|];
        split; [split; intros H;
                [contradiction | exfalso; apply Hnot; rewrite H; now left]|];
        split; [intros H; exfalso; apply Hnot; rewrite H; now left
               | intros H; vm_compute in H; discriminate H] ].
Qed.

End Summary.

(* ================================================================= *)
(** ** The range of the hash *)

Section HashRange.

(** X20.  [simpleHash] returns an integer between 0 and 2^31, the empty
    string hashes to 0, and so every remainder [hash % m] the engine takes
    (with m > 0) lies between 0 and m - 1. *)
Theorem simpleHash_range (str : string) :
  0 <= simpleHash str <= 2 ^ 31
  /\ simpleHash "" = 0
  /\ forall m, 0 < m -> 0 <= JS.rem (simpleHash str) m < m.
Proof.
  pose proof (simpleHash_codes_range (JS.charCodes str)) as H.
  fold (simpleHash str) in H.
  repeat split; try apply H.
  - apply rem_bounds; [apply H | assumption].
  - apply rem_bounds; [apply H | assumption].
Qed.

End HashRange.
